(** * Sentiment analyser (app.py): credential store, text cleaner, predictor

    A shallow embedding of [app.py] and the properties of its operations.

    - Python [str] values are [string]s; a character is a code point below 256,
      and the string primitives ([str.lower], [str.split], [str.join],
      [re.sub]) follow Python on that range. A code point above it is, like
      every character outside a-zA-Z, a word separator for [clean_text]
      (see [clean_text_separator]).
    - The SQLite table [users] is the list of its rows in insertion order; the
      database file either has the table or not.
    - Exceptions are values of [exn]; a call either [Returns] or [Raises].
    - Streamlit calls are recorded as the list of elements they render. *)

From Stdlib Require Import Bool List Arith Lia ZArith.
From Stdlib Require Import Ascii String.
Import ListNotations.

Local Open Scope string_scope.
Local Open Scope list_scope.

(** ** Exceptions *)

Inductive exn : Type :=
| IntegrityError      (* sqlite3: uniqueness of the primary key violated *)
| OperationalError    (* sqlite3: no such table *)
| FileNotFoundError   (* open() of a missing pickle *)
| IndexError          (* [0] on an empty prediction array *)
| KeyError            (* tweet['text'] on a tweet without that field *)
| RemoteError         (* whatever the scraping library raises *)
| EstimatorError.     (* whatever [transform] or [predict] raises *)

Inductive outcome (A : Type) : Type :=
| Returns (a : A)
| Raises (e : exn).

Arguments Returns {A} a.
Arguments Raises {A} e.

Definition bind {A B : Type} (m : outcome A) (k : A -> outcome B) : outcome B :=
  match m with
  | Returns a => k a
  | Raises e => Raises e
  end.

Declare Scope outcome_scope.
Delimit Scope outcome_scope with outcome.
Notation "'do' x <- m ; k" := (bind m (fun x => k))
  (at level 10, x pattern, m at level 100, k at level 200) : outcome_scope.

(** ** Python string primitives *)

Module Py.

Definition in_range (lo hi c : ascii) : bool :=
  ((lo <=? c) && (c <=? hi))%char.

(** The character class [a-zA-Z] of the regular expression. *)
Definition is_alpha (c : ascii) : bool :=
  in_range "a" "z" c || in_range "A" "Z" c.

Definition is_lower_alpha (c : ascii) : bool := in_range "a" "z" c.

(** [str.isspace] on one character: tab, line feed, vertical tab, form feed,
    carriage return, the four separators 0x1c-0x1f, space, NEL and the
    no-break space. *)
Definition isspace (c : ascii) : bool :=
  in_range "009" "013" c || in_range "028" "032" c
  || (c =? "133")%char || (c =? "160")%char.

(** [str.lower] on one character: the letters A-Z and the upper-case letters
    of Latin-1 (0xC0-0xDE but the multiplication sign) move up by 32. *)
Definition lower_char (c : ascii) : ascii :=
  if in_range "A" "Z" c
     || (in_range "192" "222" c && negb (c =? "215")%char)
  then ascii_of_nat (nat_of_ascii c + 32)
  else c.

Fixpoint map_chars (f : ascii -> ascii) (s : string) : string :=
  match s with
  | EmptyString => EmptyString
  | String c s' => String (f c) (map_chars f s')
  end.

Fixpoint all_chars (p : ascii -> bool) (s : string) : bool :=
  match s with
  | EmptyString => true
  | String c s' => p c && all_chars p s'
  end.

(** [text.lower()] *)
Definition lower (s : string) : string := map_chars lower_char s.

(** [re.sub('[^a-zA-Z]', ' ', text)]: every character outside the class is
    replaced, one for one, by a space. *)
Definition sub_non_alpha (s : string) : string :=
  map_chars (fun c => if is_alpha c then c else " "%char) s.

Definition starts_word (s : string) : bool :=
  match s with
  | EmptyString => false
  | String c _ => negb (isspace c)
  end.

(** [text.split()] with no argument: the maximal runs of characters that are
    not whitespace, in order; no empty string is produced. *)
Fixpoint split (s : string) : list string :=
  match s with
  | EmptyString => []
  | String c s' =>
      if isspace c then split s'
      else if starts_word s' then
             match split s' with
             | t :: ts => String c t :: ts
             | [] => [String c EmptyString]
             end
           else String c EmptyString :: split s'
  end.

(** [sep.join(words)] *)
Definition join (sep : string) (words : list string) : string :=
  String.concat sep words.

(** [word in words] on a list of strings. *)
Definition contains (words : list string) (word : string) : bool :=
  existsb (String.eqb word) words.

End Py.

(** ** Text preprocessing *)

Section TextPreprocessing.

(** [stop_words = stopwords.words('english')]: the list comes from the NLTK
    corpus downloaded when the module is loaded; the program only reads it. *)
Variable stop_words : list string.

(** [clean_text(text)] *)
Definition clean_text (text : string) : string :=
  let text := Py.sub_non_alpha text in
  let text := Py.lower text in
  let text := Py.split text in
  let text := filter (fun word => negb (Py.contains stop_words word)) text in
  Py.join " " text.

End TextPreprocessing.

(** ** Credential store *)

(** A row of [users (username TEXT PRIMARY KEY, name TEXT, password TEXT)];
    [fetchone] hands it back as the tuple of its three columns. *)
Record user : Type := mkUser {
  username : string;
  name : string;
  password : string
}.

Definition table : Type := list user.

(** The file [users.db]: [None] until the table [users] has been created. *)
Definition database : Type := option table.

(** [init_db()]: CREATE TABLE IF NOT EXISTS. *)
Definition init_db (db : database) : database :=
  match db with
  | None => Some []
  | Some t => Some t
  end.

Definition has_username (u : string) (t : table) : bool :=
  existsb (fun r => username r =? u) t.

(** [INSERT INTO users (username, name, password) VALUES (?, ?, ?)]: the
    primary key refuses a second row with the same username. *)
Definition insert_user (r : user) (t : table) : outcome table :=
  if has_username (username r) t then Raises IntegrityError
  else Returns (t ++ [r]).

(** [SELECT * FROM users WHERE username = ? AND password = ?] followed by
    [fetchone()]: the first matching row, if any. *)
Definition select_user (u p : string) (t : table) : option user :=
  find (fun r => (username r =? u) && (password r =? p)) t.

(** [register_user(username, name, password)]: the result of the call and the
    database it leaves. Only [IntegrityError] is caught. *)
Definition register_user (u n p : string) (db : database)
  : outcome (bool * string) * database :=
  match db with
  | None => (Raises OperationalError, None)
  | Some t =>
      match insert_user (mkUser u n p) t with
      | Returns t' => (Returns (true, "User registered successfully."), Some t')
      | Raises IntegrityError =>
          (Returns (false, "Username already exists."), Some t)
      | Raises e => (Raises e, Some t)
      end
  end.

(** [login_user(username, password)] *)
Definition login_user (u p : string) (db : database)
  : outcome (option user) * database :=
  match db with
  | None => (Raises OperationalError, None)
  | Some t => (Returns (select_user u p t), Some t)
  end.

(** ** Sentiment prediction *)

(** What a classifier may hand back as a label: an integer, a boolean or a
    string (floating-point labels are left out). *)
Inductive label : Type :=
| PyInt (z : Z)
| PyBool (b : bool)
| PyStr (s : string).

(** [prediction == 1]: an integer is compared by value, [True] equals 1 and
    a string never does. *)
Definition eq_one (prediction : label) : bool :=
  match prediction with
  | PyInt z => (z =? 1)%Z
  | PyBool b => b
  | PyStr _ => false
  end.

Section Prediction.

(** The feature matrix a vectorizer produces and a classifier consumes. *)
Variable matrix : Type.

(** The two unpickled objects when they are fitted estimators: [transform]
    and [predict] compute from their argument alone, raise nothing and leave
    the object as it is. [VectorizerClass] and [ClassifierClass] below are
    the objects in general. *)
Record Vectorizer : Type := { transform : list string -> matrix }.
Record Classifier : Type := { predict : matrix -> list label }.

Variable stop_words : list string.

(** [predict_sentiment(text, model, vectorizer)] *)
Definition predict_sentiment (text : string) (model : Classifier)
    (vectorizer : Vectorizer) : outcome string :=
  let cleaned := clean_text stop_words text in
  let vector := transform vectorizer [cleaned] in
  match predict model vector with
  | [] => Raises IndexError
  | prediction :: _ =>
      Returns (if eq_one prediction then "Positive" else "Negative")
  end.

End Prediction.

Arguments transform {matrix} _ _.
Arguments predict {matrix} _ _.
Arguments predict_sentiment {matrix} stop_words text model vectorizer.

(** *** The estimators as Python objects

    An unpickled object is a state of its class: a call of one of its methods
    may raise, and may leave the object in another state. *)

Record VectorizerClass (matrix V : Type) : Type := {
  transform_method : V -> list string -> outcome matrix * V
}.

Record ClassifierClass (matrix M : Type) : Type := {
  predict_method : M -> matrix -> outcome (list label) * M
}.

Arguments transform_method {matrix V} _ _ _.
Arguments predict_method {matrix M} _ _ _.

Section PredictionOnObjects.

Context {matrix V M : Type}.
Variable vectorizer_class : VectorizerClass matrix V.
Variable model_class : ClassifierClass matrix M.
Variable stop_words : list string.

(** [predict_sentiment(text, model, vectorizer)] on such objects: how the call
    ends, and the states it leaves the model and the vectorizer in. An
    exception of [transform] or of [predict] leaves the function as it is
    raised; [[0]] raises [IndexError] on an empty array. *)
Definition predict_sentiment_call (text : string) (model : M) (vectorizer : V)
  : outcome string * (M * V) :=
  let cleaned := clean_text stop_words text in
  match transform_method vectorizer_class vectorizer [cleaned] with
  | (Raises e, vectorizer') => (Raises e, (model, vectorizer'))
  | (Returns vector, vectorizer') =>
      match predict_method model_class model vector with
      | (Raises e, model') => (Raises e, (model', vectorizer'))
      | (Returns [], model') => (Raises IndexError, (model', vectorizer'))
      | (Returns (prediction :: _), model') =>
          (Returns (if eq_one prediction then "Positive" else "Negative"),
           (model', vectorizer'))
      end
  end.



End PredictionOnObjects.

(** A fitted estimator as an object: its methods return what the function
    computes and there is no state to change. *)
Definition fitted_vectorizer {matrix : Type} (vectorizer : Vectorizer matrix)
  : VectorizerClass matrix unit :=
  {| transform_method := fun state docs =>
       (Returns (transform vectorizer docs), state) |}.

Definition fitted_classifier {matrix : Type} (model : Classifier matrix)
  : ClassifierClass matrix unit :=
  {| predict_method := fun state vector =>
       (Returns (predict model vector), state) |}.

(** ** Twitter scraper *)

(** A Python dict with string keys, as the list of its items. *)
Definition dict (V : Type) : Type := list (string * V).

Fixpoint lookup {V : Type} (key : string) (d : dict V) : option V :=
  match d with
  | [] => None
  | (k, v) :: d' => if k =? key then Some v else lookup key d'
  end.

(** [d.get(key, default)] *)
Definition get {V : Type} (d : dict V) (key : string) (default : V) : V :=
  match lookup key d with
  | Some v => v
  | None => default
  end.

(** [d[key]] *)
Definition item {V : Type} (d : dict V) (key : string) : outcome V :=
  match lookup key d with
  | Some v => Returns v
  | None => Raises KeyError
  end.

(** A scraped tweet (its string fields) and what [Nitter.get_tweets] returns:
    a dict of lists of tweets. *)
Definition tweet : Type := dict string.
Definition tweets_data : Type := dict (list tweet).

(** A [Nitter] object: [get_tweets(username, mode=..., number=...)]. *)
Record Scraper : Type := {
  scraper_get_tweets : string -> string -> nat -> outcome tweets_data
}.

(** [[f(x) for x in xs]], stopping at the first exception. *)
Fixpoint comprehension {A B : Type} (f : A -> outcome B) (xs : list A)
  : outcome (list B) :=
  match xs with
  | [] => Returns []
  | x :: xs' =>
      (do y <- f x; do ys <- comprehension f xs'; Returns (y :: ys))%outcome
  end.

(** ** The state the program runs in *)

Section Program.

Variable matrix : Type.

Record world : Type := {
  (** the file users.db *)
  users_db : database;
  (** the module global [stop_words] *)
  stop_words : list string;
  (** [from ntscraper import Nitter]: [None] when the import fails, else what
      the constructor [Nitter()] does *)
  Nitter : option (outcome Scraper);
  (** the pickles in the working directory, by file name, each holding an
      object of the kind its name says *)
  model_pkl : string -> option (Classifier matrix);
  vectorizer_pkl : string -> option (Vectorizer matrix)
}.

Definition SCRAPER_AVAILABLE (w : world) : bool :=
  match Nitter w with
  | Some _ => true
  | None => false
  end.

Definition with_users_db (w : world) (db : database) : world :=
  {| users_db := db;
     stop_words := stop_words w;
     Nitter := Nitter w;
     model_pkl := model_pkl w;
     vectorizer_pkl := vectorizer_pkl w |}.

(** [load_model(model_name)] *)
Definition load_model (w : world) (model_name : string)
  : outcome (Classifier matrix * Vectorizer matrix) :=
  match model_pkl w (model_name ++ "_model.pkl") with
  | None => Raises FileNotFoundError
  | Some model =>
      match vectorizer_pkl w (model_name ++ "_vectorizer.pkl") with
      | None => Raises FileNotFoundError
      | Some vectorizer => Returns (model, vectorizer)
      end
  end.

(** [get_tweets(username)] *)
Definition get_tweets (w : world) (username : string) : outcome (list string) :=
  match Nitter w with
  | None => Returns []
  | Some constructed =>
      (do scraper <- constructed;
       do tweets_data <- scraper_get_tweets scraper username "user" 5;
       comprehension (fun tweet => item tweet "text")
                     (get tweets_data "tweets" []))%outcome
  end.

(** What Streamlit renders. *)
Inductive element : Type :=
| Header (s : string)
| Success (s : string)
| Warning (s : string)
| Info (s : string)
| Markdown (s : string).

(** The values the widgets of the analysis page return in one run. *)
Record widgets : Type := {
  model_choice : string;            (* selectbox "Choose a model" *)
  option_ : string;                 (* [option]: radio "Select input method" *)
  user_text : string;               (* text_area "Enter text to analyze" *)
  analyze : bool;                   (* button "Analyze" *)
  twitter_user : string;            (* text_input "Enter Twitter username" *)
  fetch_and_analyze : bool          (* button "Fetch and Analyze" *)
}.

Definition tweet_card (tweet sentiment : string) : string :=
  let color := if sentiment =? "Positive" then "lightgreen" else "tomato" in
  "<div style='background-color:" ++ color
  ++ "; padding:10px; border-radius:5px;'>" ++ tweet ++ "<br><b>"
  ++ sentiment ++ "</b></div>".

(** The loop [for tweet in tweets]: the cards rendered, and how it ended. *)
Fixpoint analyze_tweets (w : world) (model : Classifier matrix)
    (vectorizer : Vectorizer matrix) (tweets : list string)
  : list element * outcome unit :=
  match tweets with
  | [] => ([], Returns tt)
  | tweet :: rest =>
      match predict_sentiment (stop_words w) tweet model vectorizer with
      | Raises e => ([], Raises e)
      | Returns sentiment =>
          let (shown, r) := analyze_tweets w model vectorizer rest in
          (Markdown (tweet_card tweet sentiment) :: shown, r)
      end
  end.

(** [run_sentiment_analysis()]: the elements rendered, in order, and how the
    call ended. (The header's icon is left out of the text.) *)
Definition run_sentiment_analysis (w : world) (ui : widgets)
  : list element * outcome unit :=
  let header := [Header "Sentiment Analysis"] in
  match load_model w (model_choice ui) with
  | Raises e => (header, Raises e)
  | Returns (model, vectorizer) =>
      if option_ ui =? "Input text" then
        if analyze ui then
          match predict_sentiment (stop_words w) (user_text ui) model vectorizer with
          | Raises e => (header, Raises e)
          | Returns sentiment =>
              (header ++ [Success ("Sentiment: " ++ sentiment)], Returns tt)
          end
        else (header, Returns tt)
      else if option_ ui =? "Analyze tweets from username" then
        if negb (SCRAPER_AVAILABLE w) then
          (header
           ++ [Warning "Nitter module not installed. Twitter scraping unavailable."],
           Returns tt)
        else if fetch_and_analyze ui then
          match get_tweets w (twitter_user ui) with
          | Raises e => (header, Raises e)
          | Returns [] =>
              (header ++ [Info "No tweets found or failed to fetch."], Returns tt)
          | Returns tweets =>
              let (shown, r) := analyze_tweets w model vectorizer tweets in
              (header ++ shown, r)
          end
        else (header, Returns tt)
      else (header, Returns tt)
  end.

(** The operations of the program as calls on the world, for statements about
    sequences of calls. *)
Inductive call : Type :=
| InitDb
| RegisterUser (username name password : string)
| LoginUser (username password : string)
| PredictSentiment (text : string) (model : Classifier matrix)
                   (vectorizer : Vectorizer matrix)
| GetTweets (username : string)
| RunSentimentAnalysis (ui : widgets).

Inductive result : Type :=
| Done
| Registered (r : outcome (bool * string))
| LoggedIn (r : outcome (option user))
| Sentiment (r : outcome string)
| Tweets (r : outcome (list string))
| Page (shown : list element) (r : outcome unit).

Definition exec (c : call) (w : world) : result * world :=
  match c with
  | InitDb => (Done, with_users_db w (init_db (users_db w)))
  | RegisterUser u n p =>
      let (r, db) := register_user u n p (users_db w) in
      (Registered r, with_users_db w db)
  | LoginUser u p =>
      let (r, db) := login_user u p (users_db w) in
      (LoggedIn r, with_users_db w db)
  | PredictSentiment text model vectorizer =>
      (Sentiment (predict_sentiment (stop_words w) text model vectorizer), w)
  | GetTweets u => (Tweets (get_tweets w u), w)
  | RunSentimentAnalysis ui =>
      let (shown, r) := run_sentiment_analysis w ui in (Page shown r, w)
  end.

Fixpoint run (cs : list call) (w : world) : world :=
  match cs with
  | [] => w
  | c :: cs' => run cs' (snd (exec c w))
  end.

End Program.

Arguments world matrix : clear implicits.
Arguments call matrix : clear implicits.
Arguments users_db {matrix} w.
Arguments stop_words {matrix} w.
Arguments Nitter {matrix} w.
Arguments SCRAPER_AVAILABLE {matrix} w.
Arguments with_users_db {matrix} w db.
Arguments load_model {matrix} w model_name.
Arguments get_tweets {matrix} w username.
Arguments analyze_tweets {matrix} w model vectorizer tweets.
Arguments run_sentiment_analysis {matrix} w ui.
Arguments model_pkl {matrix} w file.
Arguments vectorizer_pkl {matrix} w file.
Arguments InitDb {matrix}.
Arguments RegisterUser {matrix} username name password.
Arguments LoginUser {matrix} username password.
Arguments PredictSentiment {matrix} text model vectorizer.
Arguments GetTweets {matrix} username.
Arguments RunSentimentAnalysis {matrix} ui.
Arguments exec {matrix} c w.
Arguments run {matrix} cs w.

(** ** The controller *)

(** What a run of [main] puts on the page: its own title, subheader and
    message boxes, and the elements of the analysis page. *)
Inductive screen : Type :=
| Title (s : string)
| Subheader (s : string)
| SuccessBox (s : string)
| ErrorBox (s : string)
| Analysis (e : element).

(** The values the widgets return in one run of [main]. *)
Record form : Type := {
  choice : string;                  (* sidebar selectbox "Menu" *)
  username_input : string;          (* text_input "Username" *)
  name_input : string;              (* text_input "Name" *)
  password_input : string;          (* text_input "Password" *)
  register_button : bool;           (* button "Register" *)
  login_button : bool;              (* button "Login" *)
  analysis_widgets : widgets        (* the widgets of the analysis page *)
}.

Section Controller.

Variable matrix : Type.

(** [main()]: what is rendered, how the run ended, and the world it leaves.
    (The title's icon is left out of the text.) *)
Definition main (w : world matrix) (f : form)
  : (list screen * outcome unit) * world matrix :=
  let title := [Title "Sentiment Analyzer with User Auth"] in
  let w := with_users_db w (init_db (users_db w)) in
  if choice f =? "Register" then
    let shown := title ++ [Subheader "Create New Account"] in
    if register_button f then
      match register_user (username_input f) (name_input f)
                          (password_input f) (users_db w) with
      | (Returns (success, msg), db) =>
          ((shown ++ [if success then SuccessBox msg else ErrorBox msg],
            Returns tt),
           with_users_db w db)
      | (Raises e, db) => ((shown, Raises e), with_users_db w db)
      end
    else ((shown, Returns tt), w)
  else if choice f =? "Login" then
    let shown := title ++ [Subheader "Login"] in
    if login_button f then
      match login_user (username_input f) (password_input f) (users_db w) with
      | (Returns (Some user), db) =>
          let w := with_users_db w db in
          let (page, r) := run_sentiment_analysis w (analysis_widgets f) in
          ((shown ++ [SuccessBox ("Welcome " ++ name user ++ "!")]
                  ++ map Analysis page, r),
           w)
      | (Returns None, db) =>
          ((shown ++ [ErrorBox "Invalid credentials"], Returns tt),
           with_users_db w db)
      | (Raises e, db) => ((shown, Raises e), with_users_db w db)
      end
    else ((shown, Returns tt), w)
  else ((title, Returns tt), w).

(** The script run once per interaction, each run on the world the one before
    left. *)
Fixpoint session (fs : list form) (w : world matrix) : world matrix :=
  match fs with
  | [] => w
  | f :: fs' => session fs' (snd (main w f))
  end.

End Controller.

Arguments main {matrix} w f.
Arguments session {matrix} fs w.

(** ** The cleaner as the specification words it

    Strip what is not a letter of the alphabet, lower-case, cut into words at
    whitespace, drop the stop words, put single spaces between the rest. Each
    step is written on its own; only the test for whitespace is shared with
    the Python primitives. *)

Module Spec.

Definition letter (c : ascii) : bool :=
  let n := nat_of_ascii c in
  ((65 <=? n) && (n <=? 90) || (97 <=? n) && (n <=? 122))%nat.

Fixpoint strip (s : string) : string :=
  match s with
  | EmptyString => EmptyString
  | String c s' => String (if letter c then c else " "%char) (strip s')
  end.

Definition lower_letter (c : ascii) : ascii :=
  let n := nat_of_ascii c in
  if ((65 <=? n) && (n <=? 90))%nat then ascii_of_nat (n + 32) else c.

Fixpoint lower_case (s : string) : string :=
  match s with
  | EmptyString => EmptyString
  | String c s' => String (lower_letter c) (lower_case s')
  end.

(** The words of [s], [word] being the word read so far. *)
Fixpoint words_from (word : string) (s : string) : list string :=
  match s with
  | EmptyString => if word =? "" then [] else [word]
  | String c s' =>
      if Py.isspace c then
        if word =? "" then words_from "" s' else word :: words_from "" s'
      else words_from (word ++ String c EmptyString)%string s'
  end.

Definition words (s : string) : list string := words_from "" s.

Definition drop (stop : list string) (ws : list string) : list string :=
  filter (fun w => if in_dec string_dec w stop then false else true) ws.

Definition rejoin (ws : list string) : string :=
  match ws with
  | [] => ""
  | w :: ws' => fold_left (fun acc w' => (acc ++ " " ++ w')%string) ws' w
  end.

Definition clean (stop : list string) (text : string) : string :=
  rejoin (drop stop (words (lower_case (strip text)))).

End Spec.

(** ** Predicates on cleaned strings *)

Definition lower_or_space (c : ascii) : bool :=
  Py.is_lower_alpha c || (c =? " ")%char.

Definition leading_space (s : string) : bool :=
  match s with
  | EmptyString => false
  | String c _ => Py.isspace c
  end.

Fixpoint trailing_space (s : string) : bool :=
  match s with
  | EmptyString => false
  | String c EmptyString => Py.isspace c
  | String _ s' => trailing_space s'
  end.

Fixpoint double_space (s : string) : bool :=
  match s with
  | EmptyString => false
  | String c s' => (Py.isspace c && leading_space s') || double_space s'
  end.

(** A word of a cleaned string: not empty, lower-case letters only. *)
Definition is_word (t : string) : bool :=
  negb (t =? "") && Py.all_chars Py.is_lower_alpha t.

(** One character through [re.sub] and then [lower]. *)
Definition norm_char (c : ascii) : ascii :=
  Py.lower_char (if Py.is_alpha c then c else " "%char).

(** Not a whitespace character. *)
Definition no_space (c : ascii) : bool := negb (Py.isspace c).

(** A token as [split] gives them: not empty, no whitespace inside. *)
Definition spaceless (t : string) : Prop :=
  t <> "" /\ Py.all_chars no_space t = true.

Section Tokens.

Variable stop_words : list string.

(** The test of the list comprehension of [clean_text]. *)
Definition kept (word : string) : bool := negb (Py.contains stop_words word).

(** The list [clean_text] joins. *)
Definition tokens (text : string) : list string :=
  filter kept (Py.split (Py.lower (Py.sub_non_alpha text))).

End Tokens.

(** ** Predicates on the users table *)

Definition rows_of (u : string) (t : table) : list user :=
  filter (fun r => username r =? u) t.

(** The primary key holds: no two rows share a username. *)
Definition unique_usernames (t : table) : Prop := NoDup (map username t).

(** The registrations of a list, made one after the other. *)
Definition replay (regs : list user) (db : database) : database :=
  fold_left
    (fun db r => snd (register_user (username r) (name r) (password r) db))
    regs db.

(** The remote call fails: the constructor or [get_tweets] of the scraper
    raises. *)
Definition remote_call_fails {matrix : Type} (w : world matrix) (u : string)
  : Prop :=
  exists e,
    Nitter w = Some (Raises e)
    \/ exists scraper,
         Nitter w = Some (Returns scraper)
         /\ scraper_get_tweets scraper u "user" 5 = Raises e.

(** The card of a tweet: its text with the label the predictor gave it. *)
Definition card_of {matrix : Type} (w : world matrix)
    (model : Classifier matrix) (vectorizer : Vectorizer matrix)
    (tweet : string) (shown : element) : Prop :=
  exists sentiment,
    predict_sentiment (stop_words w) tweet model vectorizer = Returns sentiment
    /\ shown = Markdown (tweet_card tweet sentiment).

(** ** Sample data

    A small world to run the definitions on. *)

(** A vectorizer that hands the documents on and a classifier that answers
    [1] on one cleaned text, [0] elsewhere. *)
Definition toy_vectorizer : Vectorizer (list string) :=
  {| transform := fun docs => docs |}.

Definition toy_classifier : Classifier (list string) :=
  {| predict := map (fun doc => if doc =? "good movie" then PyInt 1 else PyInt 0) |}.

(** A classifier that counts its calls: it answers [1] on every odd call and
    [0] on every even one. *)
Definition alternating_classifier : ClassifierClass (list string) bool :=
  {| predict_method := fun (odd : bool) (docs : list string) =>
       (Returns (map (fun _ => PyInt (if odd then 1 else 0)) docs),
        negb odd) |}.

(** A vectorizer that was never fitted: [transform] raises. *)
Definition unfitted_vectorizer : VectorizerClass (list string) unit :=
  {| transform_method := fun state _ => (Raises EstimatorError, state) |}.

Definition sample_world (nitter : option (outcome Scraper))
  : world (list string) :=
  {| users_db := Some [];
     stop_words := ["a"; "the"];
     Nitter := nitter;
     model_pkl := fun file =>
       if file =? "logistic_model.pkl" then Some toy_classifier else None;
     vectorizer_pkl := fun file =>
       if file =? "logistic_vectorizer.pkl" then Some toy_vectorizer else None |}.

(** The library is installed and its call raises. *)
Definition failing_world : world (list string) :=
  sample_world
    (Some (Returns {| scraper_get_tweets := fun _ _ _ => Raises RemoteError |})).

(** The library is installed and finds nothing. *)
Definition quiet_world : world (list string) :=
  sample_world
    (Some (Returns {| scraper_get_tweets := fun _ _ _ =>
                        Returns [("tweets", []); ("threads", [])] |})).

(** The library is installed and returns six tweets, one more than asked. *)
Definition busy_world : world (list string) :=
  sample_world
    (Some (Returns {| scraper_get_tweets := fun _ _ _ =>
       Returns [("tweets",
                 [[("text", "good movie")]; [("text", "bad movie")];
                  [("text", "A good movie!")]; [("text", "so so")];
                  [("text", "the good movie")]; [("text", "sixth")]]);
                ("threads", [])] |})).

(** The library is installed and its second tweet has no text. *)
Definition broken_world : world (list string) :=
  sample_world
    (Some (Returns {| scraper_get_tweets := fun _ _ _ =>
       Returns [("tweets",
                 [[("text", "good movie")]; [("link", "https://x/1")];
                  [("text", "bad movie")]])] |})).

Definition fetch_page : widgets :=
  {| model_choice := "logistic";
     option_ := "Analyze tweets from username";
     user_text := "";
     analyze := false;
     twitter_user := "nasa";
     fetch_and_analyze := true |}.

(** A world whose table holds one account. *)
Definition member_world : world (list string) :=
  with_users_db quiet_world (Some [mkUser "alice" "Alice" "pw1"]).

Definition text_page : widgets :=
  {| model_choice := "logistic";
     option_ := "Input text";
     user_text := "A good movie!";
     analyze := true;
     twitter_user := "";
     fetch_and_analyze := false |}.

(** A page that asks for a model whose pickles are not there. *)
Definition svm_page : widgets :=
  {| model_choice := "svm";
     option_ := "Input text";
     user_text := "fine";
     analyze := true;
     twitter_user := "";
     fetch_and_analyze := false |}.

Definition register_form (u n p : string) : form :=
  {| choice := "Register";
     username_input := u;
     name_input := n;
     password_input := p;
     register_button := true;
     login_button := false;
     analysis_widgets := text_page |}.

Definition login_form (u p : string) (ui : widgets) : form :=
  {| choice := "Login";
     username_input := u;
     name_input := "";
     password_input := p;
     register_button := false;
     login_button := true;
     analysis_widgets := ui |}.

(** * Properties *)

(** ** Characters *)

Ltac each_char c :=
  destruct c as [[] [] [] [] [] [] [] []]; vm_compute; try reflexivity; auto.

Lemma norm_char_lower_or_space (c : ascii) :
  lower_or_space (norm_char c) = true.
Proof. each_char c. Qed.

Lemma lower_or_space_fixed (c : ascii) :
  lower_or_space c = true -> norm_char c = c.
Proof. each_char c; intro H; discriminate H. Qed.

Lemma lower_alpha_not_space (c : ascii) :
  Py.is_lower_alpha c = true -> Py.isspace c = false.
Proof. each_char c; intro H; discriminate H. Qed.

Lemma lower_or_space_split (c : ascii) :
  lower_or_space c = true -> Py.isspace c = false -> Py.is_lower_alpha c = true.
Proof. each_char c; intros H1 H2; discriminate. Qed.

Lemma norm_char_spec (c : ascii) :
  norm_char c = Spec.lower_letter (if Spec.letter c then c else " "%char).
Proof. each_char c. Qed.

Lemma isspace_space : Py.isspace " " = true.
Proof. reflexivity. Qed.

(** ** Strings *)

Lemma map_chars_compose (f g : ascii -> ascii) (s : string) :
  Py.map_chars f (Py.map_chars g s) = Py.map_chars (fun c => f (g c)) s.
Proof.
  induction s as [|c s IH]; simpl; [reflexivity | now rewrite IH].
Qed.

Lemma map_chars_ext (f g : ascii -> ascii) (s : string) :
  (forall c, f c = g c) -> Py.map_chars f s = Py.map_chars g s.
Proof.
  intro H. induction s as [|c s IH]; simpl; [reflexivity | now rewrite H, IH].
Qed.

Lemma lower_sub_non_alpha (s : string) :
  Py.lower (Py.sub_non_alpha s) = Py.map_chars norm_char s.
Proof.
  unfold Py.lower, Py.sub_non_alpha. rewrite map_chars_compose.
  apply map_chars_ext. intro c. reflexivity.
Qed.

Lemma all_chars_map (p : ascii -> bool) (f : ascii -> ascii) (s : string) :
  (forall c, p (f c) = true) -> Py.all_chars p (Py.map_chars f s) = true.
Proof.
  intro H. induction s as [|c s IH]; simpl; [reflexivity | now rewrite H, IH].
Qed.

Lemma map_chars_fixed (p : ascii -> bool) (f : ascii -> ascii) (s : string) :
  (forall c, p c = true -> f c = c) ->
  Py.all_chars p s = true -> Py.map_chars f s = s.
Proof.
  intros H. induction s as [|c s IH]; simpl; [reflexivity |].
  intro Hall. apply andb_true_iff in Hall as [Hc Hs].
  now rewrite (H c Hc), IH.
Qed.

Lemma all_chars_app (p : ascii -> bool) (s r : string) :
  Py.all_chars p (s ++ r) = Py.all_chars p s && Py.all_chars p r.
Proof.
  induction s as [|c s IH]; simpl; [reflexivity | now rewrite IH, andb_assoc].
Qed.

Lemma all_chars_impl (p q : ascii -> bool) (s : string) :
  (forall c, p c = true -> q c = true) ->
  Py.all_chars p s = true -> Py.all_chars q s = true.
Proof.
  intro H. induction s as [|c s IH]; simpl; [reflexivity |].
  intro Hall. apply andb_true_iff in Hall as [Hc Hs].
  now rewrite (H c Hc), IH.
Qed.

(** ** [split] *)

Lemma split_nonempty (s t : string) : In t (Py.split s) -> t <> "".
Proof.
  revert t. induction s as [|c s IH]; simpl; intros t Hin; [contradiction |].
  destruct (Py.isspace c); [now apply IH |].
  destruct (Py.starts_word s).
  - destruct (Py.split s) as [|t0 ts] eqn:E.
    + destruct Hin as [<- | []]. discriminate.
    + destruct Hin as [<- | Hin]; [discriminate | apply IH; now right].
  - destruct Hin as [<- | Hin]; [discriminate | now apply IH].
Qed.

(** Every character of a token is a character of the string that was cut. *)
Lemma split_all_chars (p : ascii -> bool) (s : string) :
  Py.all_chars p s = true ->
  Forall (fun t => Py.all_chars p t = true) (Py.split s).
Proof.
  induction s as [|c s IH]; simpl; intro Hall; [constructor |].
  apply andb_true_iff in Hall as [Hc Hs]. specialize (IH Hs).
  destruct (Py.isspace c); [exact IH |].
  destruct (Py.starts_word s).
  - destruct (Py.split s) as [|t0 ts].
    + constructor; [simpl; now rewrite Hc | constructor].
    + inversion IH as [|? ? Ht0 Hts]; subst.
      constructor; [simpl; now rewrite Hc, Ht0 | exact Hts].
  - constructor; [simpl; now rewrite Hc | exact IH].
Qed.

(** No token holds a whitespace character. *)
Lemma split_no_space (s : string) :
  Forall (fun t => Py.all_chars no_space t = true) (Py.split s).
Proof.
  induction s as [|c s IH]; simpl; [constructor |].
  destruct (Py.isspace c) eqn:Ec; [exact IH |].
  assert (Hc : no_space c = true) by (unfold no_space; now rewrite Ec).
  destruct (Py.starts_word s).
  - destruct (Py.split s) as [|t0 ts].
    + constructor; [simpl; now rewrite Hc | constructor].
    + inversion IH as [|? ? Ht0 Hts]; subst.
      constructor; [simpl; now rewrite Hc, Ht0 | exact Hts].
  - constructor; [simpl; now rewrite Hc | exact IH].
Qed.

(** A run without whitespace, followed by a whitespace character, is cut off
    as one token. *)
Lemma split_word_space (t r : string) (sp : ascii) :
  Py.isspace sp = true ->
  t <> "" -> Py.all_chars no_space t = true ->
  Py.split (t ++ String sp r) = t :: Py.split r.
Proof.
  intro Hsp.
  induction t as [|c t IH]; intros Hne Hall; [congruence |].
  simpl in Hall. apply andb_true_iff in Hall as [Hc Ht].
  unfold no_space in Hc. apply negb_true_iff in Hc.
  cbn [append Py.split]. rewrite Hc.
  destruct t as [|d t].
  - simpl. now rewrite Hsp.
  - assert (Hd : Py.isspace d = false).
    { simpl in Ht. apply andb_true_iff in Ht as [Hd _].
      now apply negb_true_iff in Hd. }
    replace (Py.starts_word (String d t ++ String sp r)) with true
      by (simpl; now rewrite Hd).
    rewrite IH; [reflexivity | discriminate | exact Ht].
Qed.

Lemma split_word (t : string) :
  t <> "" -> Py.all_chars no_space t = true -> Py.split t = [t].
Proof.
  induction t as [|c t IH]; intros Hne Hall; [congruence |].
  simpl in Hall. apply andb_true_iff in Hall as [Hc Ht].
  unfold no_space in Hc. apply negb_true_iff in Hc.
  cbn [Py.split]. rewrite Hc.
  destruct t as [|d t].
  - reflexivity.
  - assert (Hd : Py.isspace d = false).
    { simpl in Ht. apply andb_true_iff in Ht as [Hd _].
      now apply negb_true_iff in Hd. }
    replace (Py.starts_word (String d t)) with true by (simpl; now rewrite Hd).
    rewrite IH; [reflexivity | discriminate | exact Ht].
Qed.

Lemma join_cons (t u : string) (ts : list string) :
  Py.join " " (t :: u :: ts) = (t ++ String " " (Py.join " " (u :: ts)))%string.
Proof. reflexivity. Qed.

(** Joining with single spaces and splitting again gives the tokens back. *)
Lemma split_join (ts : list string) :
  Forall spaceless ts -> Py.split (Py.join " " ts) = ts.
Proof.
  induction ts as [|t ts IH]; intro H; [reflexivity |].
  inversion H as [|? ? [Hne Hall] Hts]; subst.
  destruct ts as [|u ts].
  - simpl. now apply split_word.
  - rewrite join_cons, split_word_space by (assumption || reflexivity).
    now rewrite IH.
Qed.

Lemma split_spaceless (s : string) : Forall spaceless (Py.split s).
Proof.
  apply Forall_forall. intros t Hin. split.
  - now apply (split_nonempty s).
  - pose proof (split_no_space s) as H.
    rewrite Forall_forall in H. now apply H.
Qed.

(** ** The cleaned string and its tokens *)

Section CleanerFacts.

Variable stop_words : list string.

Lemma clean_text_tokens (text : string) :
  clean_text stop_words text = Py.join " " (tokens stop_words text).
Proof. reflexivity. Qed.

Lemma is_word_spaceless (t : string) : is_word t = true -> spaceless t.
Proof.
  unfold is_word. intro H. apply andb_true_iff in H as [Hne Hall]. split.
  - apply negb_true_iff in Hne. now apply String.eqb_neq.
  - apply (all_chars_impl Py.is_lower_alpha); [|exact Hall].
    intros c Hc. unfold no_space. now rewrite lower_alpha_not_space.
Qed.

Lemma split_norm_words (text : string) :
  Forall (fun t => is_word t = true)
         (Py.split (Py.lower (Py.sub_non_alpha text))).
Proof.
  rewrite lower_sub_non_alpha.
  pose proof (split_spaceless (Py.map_chars norm_char text)) as Hsp.
  pose proof (split_all_chars lower_or_space (Py.map_chars norm_char text)
                (all_chars_map _ _ _ norm_char_lower_or_space)) as Hlo.
  rewrite Forall_forall in *. intros t Hin.
  destruct (Hsp t Hin) as [Hne Hns]. specialize (Hlo t Hin).
  unfold is_word. apply andb_true_iff. split.
  - apply negb_true_iff. now apply String.eqb_neq.
  - clear Hne Hin. induction t as [|c t IH]; [reflexivity |].
    simpl in *. apply andb_true_iff in Hns as [Hc Hns].
    apply andb_true_iff in Hlo as [Hl Hlo].
    unfold no_space in Hc. apply negb_true_iff in Hc.
    now rewrite (lower_or_space_split c Hl Hc), IH.
Qed.

Lemma tokens_words (text : string) :
  Forall (fun t => is_word t = true) (tokens stop_words text).
Proof.
  unfold tokens. pose proof (split_norm_words text) as H.
  rewrite Forall_forall in *. intros t Hin.
  apply filter_In in Hin as [Hin _]. now apply H.
Qed.

Lemma tokens_kept (text : string) :
  Forall (fun t => kept stop_words t = true) (tokens stop_words text).
Proof.
  unfold tokens. apply Forall_forall. intros t Hin.
  now apply filter_In in Hin as [_ Hk].
Qed.

Lemma filter_all {A : Type} (f : A -> bool) (l : list A) :
  Forall (fun x => f x = true) l -> filter f l = l.
Proof.
  induction 1 as [|x l Hx _ IH]; simpl; [reflexivity | now rewrite Hx, IH].
Qed.

Lemma all_chars_join (p : ascii -> bool) (ts : list string) :
  p " "%char = true ->
  Forall (fun t => Py.all_chars p t = true) ts ->
  Py.all_chars p (Py.join " " ts) = true.
Proof.
  intros Hsp. induction 1 as [|t ts Ht Hts IH]; [reflexivity |].
  destruct ts as [|u ts]; [exact Ht |].
  rewrite join_cons, all_chars_app, Ht. cbn [Py.all_chars andb].
  now rewrite Hsp, IH.
Qed.

Lemma join_words_lower_or_space (ts : list string) :
  Forall (fun t => is_word t = true) ts ->
  Py.all_chars lower_or_space (Py.join " " ts) = true.
Proof.
  intro H. apply all_chars_join; [reflexivity |].
  eapply Forall_impl; [|exact H]. intros t Ht.
  unfold is_word in Ht. apply andb_true_iff in Ht as [_ Ht].
  apply (all_chars_impl Py.is_lower_alpha); [|exact Ht].
  intros c Hc. unfold lower_or_space. now rewrite Hc.
Qed.

(** Cleaned text passes [re.sub], [lower] and [split] unchanged. *)
Lemma split_norm_join (ts : list string) :
  Forall (fun t => is_word t = true) ts ->
  Py.split (Py.lower (Py.sub_non_alpha (Py.join " " ts))) = ts.
Proof.
  intro H. rewrite lower_sub_non_alpha.
  rewrite (map_chars_fixed lower_or_space).
  - apply split_join. eapply Forall_impl; [|exact H].
    intros t. apply is_word_spaceless.
  - apply lower_or_space_fixed.
  - now apply join_words_lower_or_space.
Qed.

End CleanerFacts.

(** ** The Python pipeline against the specification's wording *)

Lemma append_assoc (a b c : string) :
  ((a ++ b) ++ c)%string = (a ++ (b ++ c))%string.
Proof. induction a as [|x a IH]; simpl; [reflexivity | now rewrite IH]. Qed.

Lemma append_empty_r (a : string) : (a ++ "")%string = a.
Proof. induction a as [|x a IH]; simpl; [reflexivity | now rewrite IH]. Qed.

Lemma strip_lower_case (s : string) :
  Spec.lower_case (Spec.strip s) = Py.lower (Py.sub_non_alpha s).
Proof.
  rewrite lower_sub_non_alpha.
  induction s as [|c s IH]; cbn [Spec.strip Spec.lower_case Py.map_chars].
  - reflexivity.
  - now rewrite IH, norm_char_spec.
Qed.

Lemma words_from_split (s : string) :
  forall word, Py.all_chars no_space word = true ->
  Spec.words_from word s = Py.split (word ++ s).
Proof.
  induction s as [|c s IH]; intros word Hw; cbn [Spec.words_from].
  - rewrite append_empty_r.
    destruct (String.eqb_spec word "") as [-> | Hne]; [reflexivity |].
    symmetry. now apply split_word.
  - destruct (Py.isspace c) eqn:Ec.
    + destruct (String.eqb_spec word "") as [-> | Hne].
      * rewrite (IH "" eq_refl). cbn [append Py.split]. now rewrite Ec.
      * rewrite split_word_space by assumption.
        now rewrite (IH "" eq_refl).
    + rewrite IH.
      * now rewrite append_assoc.
      * rewrite all_chars_app, Hw. unfold no_space. simpl. now rewrite Ec.
Qed.

Lemma words_split (s : string) : Spec.words s = Py.split s.
Proof. unfold Spec.words. now rewrite words_from_split. Qed.

Lemma contains_In (words : list string) (word : string) :
  Py.contains words word = true <-> In word words.
Proof.
  unfold Py.contains. rewrite existsb_exists. split.
  - intros [x [Hin Heq]]. apply String.eqb_eq in Heq. now subst.
  - intro Hin. exists word. split; [exact Hin | apply String.eqb_refl].
Qed.

Lemma drop_filter (stop ws : list string) :
  Spec.drop stop ws = filter (kept stop) ws.
Proof.
  apply filter_ext. intro w. unfold kept.
  destruct (in_dec string_dec w stop) as [Hin | Hout].
  - apply contains_In in Hin. now rewrite Hin.
  - destruct (Py.contains stop w) eqn:E; [|reflexivity].
    apply contains_In in E. contradiction.
Qed.

Lemma fold_left_join (ws : list string) :
  forall acc,
  fold_left (fun a w => (a ++ " " ++ w)%string) ws acc =
  match ws with
  | [] => acc
  | _ => (acc ++ String " " (Py.join " " ws))%string
  end.
Proof.
  induction ws as [|w ws IH]; intro acc; cbn [fold_left]; [reflexivity |].
  rewrite IH. destruct ws as [|u ws]; [reflexivity |].
  rewrite (join_cons w u ws), append_assoc. reflexivity.
Qed.

Lemma rejoin_join (ws : list string) : Spec.rejoin ws = Py.join " " ws.
Proof.
  destruct ws as [|w ws]; [reflexivity |].
  unfold Spec.rejoin. rewrite fold_left_join.
  destruct ws as [|u ws]; [reflexivity | now rewrite join_cons].
Qed.

(** ** Shape of a string joined from tokens *)

Lemma join_starts_word (t : string) (ts : list string) :
  spaceless t -> Py.starts_word (Py.join " " (t :: ts)) = true.
Proof.
  intros [Hne Hall]. destruct t as [|c t]; [congruence |].
  simpl in Hall. apply andb_true_iff in Hall as [Hc _].
  destruct ts as [|u ts]; [exact Hc | rewrite join_cons; exact Hc].
Qed.

Lemma leading_space_join (ts : list string) :
  Forall spaceless ts -> leading_space (Py.join " " ts) = false.
Proof.
  intro H. destruct ts as [|t ts]; [reflexivity |].
  inversion H as [|? ? Ht _]; subst.
  pose proof (join_starts_word t ts Ht) as Hs.
  destruct (Py.join " " (t :: ts)) as [|c r]; [reflexivity |].
  simpl in *. now apply negb_true_iff in Hs.
Qed.

Lemma trailing_space_app (t r : string) :
  r <> "" -> trailing_space (t ++ r) = trailing_space r.
Proof.
  intro Hr. induction t as [|c t IH]; [reflexivity |].
  cbn [append]. rewrite <- IH.
  destruct (t ++ r)%string as [|d q] eqn:E; [|reflexivity].
  destruct t; simpl in E; [congruence | discriminate].
Qed.

Lemma trailing_space_word (t : string) :
  Py.all_chars no_space t = true -> trailing_space t = false.
Proof.
  induction t as [|c t IH]; [reflexivity |].
  cbn [Py.all_chars]. intro H. apply andb_true_iff in H as [Hc Ht].
  destruct t as [|d t]; [now apply negb_true_iff in Hc | now apply IH].
Qed.

Lemma trailing_space_join (ts : list string) :
  Forall spaceless ts -> trailing_space (Py.join " " ts) = false.
Proof.
  induction 1 as [|t ts Ht Hts IH]; [reflexivity |].
  destruct ts as [|u ts]; [apply trailing_space_word, Ht |].
  rewrite join_cons, trailing_space_app by discriminate.
  inversion Hts as [|? ? Hu _]; subst.
  pose proof (join_starts_word u ts Hu) as Hs.
  destruct (Py.join " " (u :: ts)) as [|c r]; [discriminate Hs | exact IH].
Qed.

Lemma double_space_app (t r : string) :
  Py.all_chars no_space t = true -> double_space (t ++ r) = double_space r.
Proof.
  induction t as [|c t IH]; [reflexivity |].
  cbn [Py.all_chars append double_space]. intro H.
  apply andb_true_iff in H as [Hc Ht]. apply negb_true_iff in Hc.
  now rewrite Hc, IH.
Qed.

Lemma double_space_join (ts : list string) :
  Forall spaceless ts -> double_space (Py.join " " ts) = false.
Proof.
  induction 1 as [|t ts Ht Hts IH]; [reflexivity |].
  destruct ts as [|u ts].
  - change (Py.join " " [t]) with t.
    rewrite <- (append_empty_r t). now rewrite double_space_app by apply Ht.
  - rewrite join_cons, double_space_app by apply Ht.
    cbn [double_space]. rewrite IH, (leading_space_join _ Hts). reflexivity.
Qed.

(** ** Characters outside the alphabet only separate words *)

Lemma starts_word_split (s : string) :
  Py.starts_word s = true -> Py.split s <> [].
Proof.
  destruct s as [|c s]; [discriminate |].
  cbn [Py.starts_word Py.split]. intro H. apply negb_true_iff in H.
  rewrite H. destruct (Py.starts_word s); [|discriminate].
  destruct (Py.split s); discriminate.
Qed.

Lemma starts_word_app_space (a b : string) (sp : ascii) :
  Py.isspace sp = true ->
  Py.starts_word (a ++ String sp b) = Py.starts_word a.
Proof.
  intro Hsp. destruct a as [|c a]; [|reflexivity].
  simpl. now rewrite Hsp.
Qed.

(** Cutting distributes over a whitespace character. *)
Lemma split_app_space (a b : string) (sp : ascii) :
  Py.isspace sp = true ->
  Py.split (a ++ String sp b) = Py.split a ++ Py.split b.
Proof.
  intro Hsp. induction a as [|c a IH].
  - cbn [append Py.split app]. now rewrite Hsp.
  - cbn [append Py.split]. rewrite (starts_word_app_space a b sp Hsp), IH.
    destruct (Py.isspace c); [reflexivity |].
    destruct (Py.starts_word a) eqn:Ea; [|reflexivity].
    pose proof (starts_word_split a Ea) as Hne.
    destruct (Py.split a) as [|t ts]; [congruence | reflexivity].
Qed.

Lemma map_chars_app (f : ascii -> ascii) (a b : string) :
  Py.map_chars f (a ++ b) = (Py.map_chars f a ++ Py.map_chars f b)%string.
Proof.
  induction a as [|c a IH]; simpl; [reflexivity | now rewrite IH].
Qed.

Lemma norm_char_non_alpha (c : ascii) :
  Py.is_alpha c = false -> norm_char c = " "%char.
Proof. unfold norm_char. now intros ->. Qed.

Lemma tokens_app_non_alpha (stop_words : list string) (a b : string)
    (c : ascii) :
  Py.is_alpha c = false ->
  tokens stop_words (a ++ String c b)
  = tokens stop_words a ++ tokens stop_words b.
Proof.
  intro Hc. unfold tokens. rewrite !lower_sub_non_alpha.
  rewrite map_chars_app. cbn [Py.map_chars].
  rewrite (norm_char_non_alpha c Hc).
  rewrite split_app_space by reflexivity.
  apply filter_app.
Qed.

(** ** Credential store *)

Lemma has_username_In (u : string) (t : table) :
  has_username u t = true <-> In u (map username t).
Proof.
  unfold has_username. rewrite existsb_exists, in_map_iff. split.
  - intros [r [Hin Heq]]. apply String.eqb_eq in Heq. now exists r.
  - intros [r [Heq Hin]]. exists r. split; [exact Hin |].
    now apply String.eqb_eq.
Qed.

Lemma rows_of_absent (u : string) (t : table) :
  has_username u t = false -> rows_of u t = [].
Proof.
  unfold has_username, rows_of. induction t as [|r t IH]; [reflexivity |].
  simpl. intro H. apply orb_false_iff in H as [Hr Ht].
  rewrite Hr. now apply IH.
Qed.

Lemma select_user_some (u p : string) (t : table) (r : user) :
  select_user u p t = Some r -> In r t /\ username r = u /\ password r = p.
Proof.
  unfold select_user. intro H. apply find_some in H as [Hin Hm].
  apply andb_true_iff in Hm as [Hu Hp].
  apply String.eqb_eq in Hu, Hp. auto.
Qed.

Lemma select_user_none (u p : string) (t : table) :
  select_user u p t = None <->
  forall r, In r t -> username r <> u \/ password r <> p.
Proof.
  unfold select_user. split.
  - intros H r Hin. pose proof (find_none _ _ H r Hin) as Hm.
    apply andb_false_iff in Hm as [Hm | Hm]; apply String.eqb_neq in Hm; auto.
  - intro H. destruct (find _ t) as [r|] eqn:E; [|reflexivity].
    destruct (select_user_some u p t r E) as [Hin [Hu Hp]].
    destruct (H r Hin); contradiction.
Qed.

Lemma select_user_found (u p : string) (t : table) (r : user) :
  In r t -> username r = u -> password r = p ->
  exists r', select_user u p t = Some r'.
Proof.
  intros Hin Hu Hp. destruct (select_user u p t) as [r'|] eqn:E.
  - now exists r'.
  - rewrite select_user_none in E. destruct (E r Hin); contradiction.
Qed.

Lemma insert_user_fresh (r : user) (t : table) :
  has_username (username r) t = false -> insert_user r t = Returns (t ++ [r]).
Proof. unfold insert_user. now intros ->. Qed.

Lemma insert_user_taken (r : user) (t : table) :
  has_username (username r) t = true -> insert_user r t = Raises IntegrityError.
Proof. unfold insert_user. now intros ->. Qed.

Lemma insert_user_unique (r : user) (t t' : table) :
  unique_usernames t -> insert_user r t = Returns t' -> unique_usernames t'.
Proof.
  unfold insert_user, unique_usernames. intros Hu H.
  destruct (has_username (username r) t) eqn:E; [discriminate |].
  injection H as <-. rewrite map_app. simpl.
  apply NoDup_app; [exact Hu | constructor; [intros [] | constructor] |].
  intros a Hin [<- | []]. apply has_username_In in Hin. congruence.
Qed.

(** A registration that does not succeed leaves the database as it was. *)
Lemma register_user_frame (u n p : string) (db : database) :
  fst (register_user u n p db) <> Returns (true, "User registered successfully.") ->
  snd (register_user u n p db) = db.
Proof.
  unfold register_user. destruct db as [t|]; [|reflexivity].
  destruct (insert_user (mkUser u n p) t) as [t'|e] eqn:E.
  - simpl. congruence.
  - destruct e; reflexivity.
Qed.

Lemma register_user_unique (u n p : string) (t : table) :
  unique_usernames t ->
  exists t', snd (register_user u n p (Some t)) = Some t' /\ unique_usernames t'.
Proof.
  intro Hu. unfold register_user.
  destruct (insert_user (mkUser u n p) t) as [t'|e] eqn:E.
  - exists t'. split; [reflexivity |].
    exact (insert_user_unique _ t t' Hu E).
  - exists t. destruct e; now split.
Qed.

Lemma register_user_cases (u n p : string) (t : table) :
  (has_username u t = false
   /\ register_user u n p (Some t)
      = (Returns (true, "User registered successfully."),
         Some (t ++ [mkUser u n p])))
  \/ (has_username u t = true
      /\ register_user u n p (Some t)
         = (Returns (false, "Username already exists."), Some t)).
Proof.
  unfold register_user, insert_user. cbn [username].
  destruct (has_username u t); [right | left]; now split.
Qed.

Lemma replay_app (a b : list user) (db : database) :
  replay (a ++ b) db = replay b (replay a db).
Proof. unfold replay. apply fold_left_app. Qed.

Lemma replay_some (regs : list user) :
  forall t, exists t', replay regs (Some t) = Some t'.
Proof.
  induction regs as [|r regs IH]; intro t; [now exists t |].
  cbn [replay fold_left].
  destruct (register_user_cases (username r) (name r) (password r) t)
    as [[_ E] | [_ E]]; rewrite E; apply IH.
Qed.

Lemma user_eta (r : user) : mkUser (username r) (name r) (password r) = r.
Proof. now destruct r. Qed.

(** The rows of a table built by registrations from the empty table are the
    registrations that succeeded. *)
Lemma replay_rows (regs : list user) :
  forall t, replay regs (init_db None) = Some t ->
  forall r, In r t <->
    exists before after,
      regs = before ++ r :: after
      /\ fst (register_user (username r) (name r) (password r)
                (replay before (init_db None)))
         = Returns (true, "User registered successfully.").
Proof.
  induction regs as [|x regs IH] using rev_ind; intros t Ht r.
  - injection Ht as <-. split; [intros [] |].
    intros (before & after & E & _). destruct before; discriminate E.
  - rewrite replay_app in Ht.
    destruct (replay_some regs []) as [t0 Et0].
    change (Some []) with (init_db None) in Et0. rewrite Et0 in Ht.
    specialize (IH t0 Et0). cbn [replay fold_left] in Ht.
    assert (Hlast : forall before after,
               regs ++ [x] = before ++ r :: after ->
               (after = [] /\ before = regs /\ r = x)
               \/ exists after', after = after' ++ [x]
                                 /\ regs = before ++ r :: after').
    { intros before after E.
      destruct after as [|a after] using rev_ind.
      - left. apply app_inj_tail in E as [E1 E2]. now subst.
      - right. exists after.
        change (before ++ r :: after ++ [a])
          with (before ++ (r :: after) ++ [a]) in E.
        rewrite app_assoc in E. apply app_inj_tail in E as [E1 E2].
        now subst. }
    destruct (register_user_cases (username x) (name x) (password x) t0)
      as [[Hfree E] | [Htaken E]]; rewrite E in Ht; cbn [snd] in Ht;
      injection Ht as <-.
    + rewrite user_eta, in_app_iff. split.
      * intros [Hin | [<- | []]].
        -- apply IH in Hin as (before & after & -> & Hok).
           exists before, (after ++ [x]). split; [|exact Hok].
           now rewrite <- app_assoc.
        -- exists regs, []. split; [reflexivity |]. now rewrite Et0, E.
      * intros (before & after & Eq & Hok).
        destruct (Hlast before after Eq)
          as [(-> & -> & ->) | (after' & -> & ->)].
        -- right. now left.
        -- left. apply IH. now exists before, after'.
    + split.
      * intro Hin. apply IH in Hin as (before & after & -> & Hok).
        exists before, (after ++ [x]). split; [|exact Hok].
        now rewrite <- app_assoc.
      * intros (before & after & Eq & Hok).
        destruct (Hlast before after Eq)
          as [(-> & -> & ->) | (after' & -> & ->)].
        -- rewrite Et0, E in Hok. discriminate Hok.
        -- apply IH. now exists before, after'.
Qed.

Lemma login_user_frame (u p : string) (db : database) :
  snd (login_user u p db) = db.
Proof. destruct db; reflexivity. Qed.

(** ** Calls on the world *)

Section WorldFacts.

Variable matrix : Type.

Lemma with_users_db_same (w : world matrix) : with_users_db w (users_db w) = w.
Proof. now destruct w. Qed.

Lemma exec_login_user_frame (u p : string) (w : world matrix) :
  snd (exec (LoginUser u p) w) = w.
Proof.
  cbn [exec]. destruct (login_user u p (users_db w)) as [r db] eqn:E.
  pose proof (login_user_frame u p (users_db w)) as H.
  rewrite E in H. cbn [snd] in *. subst db. apply with_users_db_same.
Qed.

Lemma exec_users_db (c : call matrix) (w : world matrix) (t : table) :
  users_db w = Some t ->
  users_db (snd (exec c w)) = Some t
  \/ exists r, has_username (username r) t = false
               /\ users_db (snd (exec c w)) = Some (t ++ [r]).
Proof.
  intro H. destruct c as [| u n p | u p | text model vectorizer | u | ui];
    cbn [exec].
  - left. cbn. now rewrite H.
  - rewrite H.
    destruct (register_user_cases u n p t)
      as [[Hfree E] | [_ E]]; rewrite E; [right | now left].
    now exists (mkUser u n p).
  - left. rewrite H. reflexivity.
  - now left.
  - now left.
  - left. now destruct (run_sentiment_analysis w ui).
Qed.



End WorldFacts.

(** ** Fitted estimators *)

(** On fitted estimators the call on objects is [predict_sentiment]. *)
Lemma predict_sentiment_call_fitted {matrix : Type} (stop_words : list string)
    (text : string) (model : Classifier matrix) (vectorizer : Vectorizer matrix) :
  predict_sentiment_call (fitted_vectorizer vectorizer)
    (fitted_classifier model) stop_words text tt tt
  = (predict_sentiment stop_words text model vectorizer, (tt, tt)).
Proof.
  unfold predict_sentiment_call, predict_sentiment. cbn.
  now destruct (predict model _).
Qed.

(** * The claims *)

(** ** Credential store *)

(** C1: on a database that has the users table, [login_user u p] returns a
    record exactly when the table holds a row whose username is [u] and whose
    password is [p] (string equality, so case matters); the record returned is
    such a row; and when no row matches both fields the call returns nothing. *)
Theorem login_user_exact_match (u p : string) (t : table) :
  ((exists r, fst (login_user u p (Some t)) = Returns (Some r)) <->
   (exists r, In r t /\ username r = u /\ password r = p))
  /\ (forall r, fst (login_user u p (Some t)) = Returns (Some r) ->
        In r t /\ username r = u /\ password r = p)
  /\ ((forall r, In r t -> username r <> u \/ password r <> p) ->
        fst (login_user u p (Some t)) = Returns None).
Proof.
  cbn [login_user fst]. split; [split |split].
  - intros [r H]. exists r. injection H as H. now apply select_user_some.
  - intros [r (Hin & Hu & Hp)].
    destruct (select_user_found u p t r Hin Hu Hp) as [r' E].
    exists r'. now rewrite E.
  - intros r H. injection H as H. now apply select_user_some.
  - intro H. f_equal. now apply select_user_none.
Qed.

Example login_user_is_case_sensitive :
  let db := Some [mkUser "alice" "Alice" "pw1"] in
  fst (login_user "alice" "pw1" db) = Returns (Some (mkUser "alice" "Alice" "pw1"))
  /\ fst (login_user "Alice" "pw1" db) = Returns None
  /\ fst (login_user "alice" "PW1" db) = Returns None
  /\ fst (login_user "bob" "pw1" db) = Returns None.
Proof. repeat split. Qed.

(** C2: when a username that the table does not hold yet is registered twice,
    with any names and passwords, the first call succeeds, the second fails
    with the message of the duplicate, the failed call leaves the database as
    the first call left it, and the only row under that username carries the
    name and password of the first call. *)
Theorem register_user_twice (u n1 p1 n2 p2 : string) (t : table) :
  has_username u t = false ->
  let first := register_user u n1 p1 (Some t) in
  let second := register_user u n2 p2 (snd first) in
  fst first = Returns (true, "User registered successfully.")
  /\ fst second = Returns (false, "Username already exists.")
  /\ snd second = snd first
  /\ snd second = Some (t ++ [mkUser u n1 p1])
  /\ rows_of u (t ++ [mkUser u n1 p1]) = [mkUser u n1 p1].
Proof.
  intro Hfresh. cbn zeta.
  assert (Hfirst : register_user u n1 p1 (Some t)
                   = (Returns (true, "User registered successfully."),
                      Some (t ++ [mkUser u n1 p1]))).
  { unfold register_user. now rewrite insert_user_fresh. }
  assert (Htaken : has_username u (t ++ [mkUser u n1 p1]) = true).
  { unfold has_username. rewrite existsb_app. simpl.
    now rewrite String.eqb_refl, orb_true_r. }
  assert (Hsecond : register_user u n2 p2 (Some (t ++ [mkUser u n1 p1]))
                    = (Returns (false, "Username already exists."),
                       Some (t ++ [mkUser u n1 p1]))).
  { unfold register_user. now rewrite insert_user_taken. }
  rewrite Hfirst. cbn [fst snd]. rewrite Hsecond. cbn [fst snd].
  repeat split.
  unfold rows_of. rewrite filter_app.
  fold (rows_of u t). rewrite (rows_of_absent u t Hfresh).
  simpl. now rewrite String.eqb_refl.
Qed.

Lemma register_user_twice_witness :
  has_username "alice" [mkUser "bob" "Bob" "pw0"] = false
  /\ fst (register_user "alice" "Bob" "pw2"
            (snd (register_user "alice" "Alice" "pw1"
                    (Some [mkUser "bob" "Bob" "pw0"]))))
     = Returns (false, "Username already exists.")
  /\ snd (register_user "alice" "Bob" "pw2"
            (snd (register_user "alice" "Alice" "pw1"
                    (Some [mkUser "bob" "Bob" "pw0"]))))
     = Some [mkUser "bob" "Bob" "pw0"; mkUser "alice" "Alice" "pw1"].
Proof.
  split; [reflexivity |].
  destruct (register_user_twice "alice" "Alice" "pw1" "Bob" "pw2"
              [mkUser "bob" "Bob" "pw0"] eq_refl) as (_ & H2 & _ & H4 & _).
  split; [exact H2 | exact H4].
Defined.

(** The sequence of section 8 of the specification, from a fresh file. *)
Example end_to_end :
  let db0 := init_db None in
  let (r1, db1) := register_user "alice" "Alice" "pw1" db0 in
  let (r2, db2) := login_user "alice" "pw1" db1 in
  let (r3, db3) := login_user "alice" "wrong" db2 in
  let (r4, db4) := register_user "alice" "Bob" "pw2" db3 in
  r1 = Returns (true, "User registered successfully.")
  /\ r2 = Returns (Some (mkUser "alice" "Alice" "pw1"))
  /\ r3 = Returns None
  /\ r4 = Returns (false, "Username already exists.")
  /\ db4 = Some [mkUser "alice" "Alice" "pw1"].
Proof. repeat split. Qed.

(** C10: [login_user] leaves the database as it found it, whether the table
    is missing, the lookup fails or it succeeds; what it returns is the result
    of the select, a whole row of the table, password included. *)
Theorem login_user_read_only (u p : string) (db : database) :
  snd (login_user u p db) = db
  /\ (forall t, db = Some t ->
        fst (login_user u p db) = Returns (select_user u p t))
  /\ (forall t r, db = Some t ->
        fst (login_user u p db) = Returns (Some r) ->
        In r t /\ password r = p).
Proof.
  split; [|split].
  - apply login_user_frame.
  - intros t ->. reflexivity.
  - intros t r -> H. cbn [login_user fst] in H. injection H as H.
    apply select_user_some in H. tauto.
Qed.

(** ** Sentiment prediction *)

Section PredictionClaims.

Context {matrix : Type}.
Variable stop_words : list string.

(** C3: when the classifier hands back [prediction] for the vectorized cleaned
    text, [predict_sentiment] returns Positive exactly when [prediction == 1]
    and Negative exactly when not; an integer output compares equal only when
    it is 1, so 1 gives Positive and every other integer, zero or not, gives
    Negative, as does every string. *)
Theorem predict_sentiment_label (text : string) (model : Classifier matrix)
    (vectorizer : Vectorizer matrix) (prediction : label) (rest : list label) :
  predict model (transform vectorizer [clean_text stop_words text])
  = prediction :: rest ->
  (predict_sentiment stop_words text model vectorizer = Returns "Positive"
   <-> eq_one prediction = true)
  /\ (predict_sentiment stop_words text model vectorizer = Returns "Negative"
      <-> eq_one prediction = false)
  /\ (prediction = PyInt 1 ->
      predict_sentiment stop_words text model vectorizer = Returns "Positive")
  /\ (forall z, prediction = PyInt z -> z <> 1%Z ->
      predict_sentiment stop_words text model vectorizer = Returns "Negative")
  /\ (forall s, prediction = PyStr s ->
      predict_sentiment stop_words text model vectorizer = Returns "Negative").
Proof.
  intro Hraw. unfold predict_sentiment. cbn zeta. rewrite Hraw.
  split; [|split; [|split; [|split]]].
  - destruct (eq_one prediction); split; intro H;
      (reflexivity || discriminate H).
  - destruct (eq_one prediction); split; intro H;
      (reflexivity || discriminate H).
  - intros ->. reflexivity.
  - intros z -> Hz. cbn [eq_one].
    destruct (Z.eqb_spec z 1) as [E | _]; [contradiction | reflexivity].
  - intros s ->. reflexivity.
Qed.

End PredictionClaims.

Lemma predict_sentiment_label_witness :
  predict toy_classifier
    (transform toy_vectorizer [clean_text ["a"; "the"] "A good movie!"])
  = [PyInt 1]
  /\ predict_sentiment ["a"; "the"] "A good movie!" toy_classifier toy_vectorizer
     = Returns "Positive".
Proof.
  split; [reflexivity |].
  exact (proj1 (proj2 (proj2
    (predict_sentiment_label ["a"; "the"] "A good movie!" toy_classifier
       toy_vectorizer (PyInt 1) [] eq_refl))) eq_refl).
Defined.

(** Outputs other than 1 are Negative even when they are not zero. *)
Example predict_sentiment_nonzero :
  let model z : Classifier (list string) := {| predict := map (fun _ => PyInt z) |} in
  predict_sentiment [] "fine" (model 1%Z) toy_vectorizer = Returns "Positive"
  /\ predict_sentiment [] "fine" (model 0%Z) toy_vectorizer = Returns "Negative"
  /\ predict_sentiment [] "fine" (model 4%Z) toy_vectorizer = Returns "Negative"
  /\ predict_sentiment [] "fine" (model (-1)%Z) toy_vectorizer = Returns "Negative".
Proof. repeat split. Qed.



(** A classifier that changes with each call answers the same text
    differently the second time. *)
Example predict_sentiment_call_alternating :
  predict_sentiment_call (fitted_vectorizer toy_vectorizer)
    alternating_classifier [] "fine" true tt
  = (Returns "Positive", (false, tt))
  /\ predict_sentiment_call (fitted_vectorizer toy_vectorizer)
       alternating_classifier [] "fine" false tt
     = (Returns "Negative", (true, tt)).
Proof. split; reflexivity. Qed.

(** ** Remote fetch *)

(** C4, as stated, fails: when the scraper raises, [get_tweets] raises too
    instead of returning the empty list. *)
Lemma get_tweets_failure_propagates :
  get_tweets failing_world "nasa" = Raises RemoteError
  /\ ~ (SCRAPER_AVAILABLE failing_world = false
        \/ remote_call_fails failing_world "nasa" ->
        get_tweets failing_world "nasa" = Returns []).
Proof.
  split; [reflexivity |].
  intro H. assert (Hfail : remote_call_fails failing_world "nasa").
  { exists RemoteError. right. eexists. split; reflexivity. }
  specialize (H (or_intror Hfail)). discriminate H.
Qed.

(** C4, amended: [get_tweets] returns the empty list when the scraping
    library is not installed, and when the remote call returns a result whose
    ['tweets'] entry is missing or empty; and when the fetch of the analysis
    page comes back empty, the page shows its header and the informational
    message, no prediction, and the call ends normally. *)
Theorem get_tweets_empty {matrix : Type} (w : world matrix) (u : string) :
  (SCRAPER_AVAILABLE w = false -> get_tweets w u = Returns [])
  /\ (forall scraper data,
        Nitter w = Some (Returns scraper) ->
        scraper_get_tweets scraper u "user" 5 = Returns data ->
        get data "tweets" [] = [] ->
        get_tweets w u = Returns [])
  /\ (forall ui model vectorizer,
        load_model w (model_choice ui) = Returns (model, vectorizer) ->
        option_ ui = "Analyze tweets from username" ->
        SCRAPER_AVAILABLE w = true ->
        fetch_and_analyze ui = true ->
        twitter_user ui = u ->
        get_tweets w u = Returns [] ->
        run_sentiment_analysis w ui
        = ([Header "Sentiment Analysis";
            Info "No tweets found or failed to fetch."], Returns tt)).
Proof.
  split; [|split].
  - unfold SCRAPER_AVAILABLE, get_tweets.
    destruct (Nitter w); [discriminate | reflexivity].
  - intros scraper data Hn Hcall Hnone. unfold get_tweets.
    rewrite Hn. cbn [bind]. rewrite Hcall. cbn [bind].
    rewrite Hnone. reflexivity.
  - intros ui model vectorizer Hload Hopt Havail Hclick Huser Hfetch.
    unfold run_sentiment_analysis.
    rewrite Hload, Hopt, Havail, Hclick, Huser, Hfetch. reflexivity.
Qed.

Lemma get_tweets_empty_witness :
  get_tweets quiet_world "nasa" = Returns []
  /\ run_sentiment_analysis quiet_world fetch_page
     = ([Header "Sentiment Analysis";
         Info "No tweets found or failed to fetch."], Returns tt).
Proof.
  destruct (get_tweets_empty quiet_world "nasa") as (_ & Hquiet & Hpage).
  assert (H : get_tweets quiet_world "nasa" = Returns []).
  { eapply Hquiet; reflexivity. }
  split; [exact H |].
  eapply Hpage; (reflexivity || exact H).
Defined.

(** Without the library the page warns and stops before any fetch. *)
Lemma run_sentiment_analysis_unavailable {matrix : Type} (w : world matrix)
    (ui : widgets) (model : Classifier matrix) (vectorizer : Vectorizer matrix) :
  load_model w (model_choice ui) = Returns (model, vectorizer) ->
  option_ ui = "Analyze tweets from username" ->
  SCRAPER_AVAILABLE w = false ->
  run_sentiment_analysis w ui
  = ([Header "Sentiment Analysis";
      Warning "Nitter module not installed. Twitter scraping unavailable."],
     Returns tt).
Proof.
  intros Hload Hopt Havail. unfold run_sentiment_analysis.
  rewrite Hload, Hopt, Havail. reflexivity.
Qed.

(** ** Text cleaner *)

Section CleanerClaims.

Variable stop_words : list string.

(** C5: [clean_text] computes what the specification's wording describes:
    strip what is outside the alphabet, lower-case, cut at whitespace, drop
    the stop words, rejoin with single spaces; and with a stop-word list that
    holds neither "hello" nor "world", the text "Hello World! 123" is cleaned
    to "hello world". *)
Theorem clean_text_composition :
  (forall text, clean_text stop_words text = Spec.clean stop_words text)
  /\ (Py.contains stop_words "hello" = false ->
      Py.contains stop_words "world" = false ->
      clean_text stop_words "Hello World! 123" = "hello world").
Proof.
  split.
  - intro text. unfold Spec.clean.
    rewrite rejoin_join, drop_filter, words_split, strip_lower_case.
    reflexivity.
  - intros Hhello Hworld. unfold clean_text. cbn zeta.
    replace (Py.split (Py.lower (Py.sub_non_alpha "Hello World! 123")))
      with ["hello"; "world"] by reflexivity.
    cbn [filter]. now rewrite Hhello, Hworld.
Qed.

(** C6: cleaning a cleaned text changes nothing. *)
Theorem clean_text_idempotent (text : string) :
  clean_text stop_words (clean_text stop_words text)
  = clean_text stop_words text.
Proof.
  rewrite (clean_text_tokens stop_words text).
  rewrite (clean_text_tokens stop_words (Py.join " " (tokens stop_words text))).
  f_equal. unfold tokens at 1.
  rewrite split_norm_join by apply tokens_words.
  apply filter_all, tokens_kept.
Qed.

(** C7: the empty text, and every text whose tokens after stripping and
    lower-casing are all stop words, is cleaned to the empty string. *)
Theorem clean_text_all_stop_words (text : string) :
  text = ""
  \/ Forall (fun word => Py.contains stop_words word = true)
            (Py.split (Py.lower (Py.sub_non_alpha text))) ->
  clean_text stop_words text = "".
Proof.
  intro H.
  assert (Hall : Forall (fun word => Py.contains stop_words word = true)
                        (Py.split (Py.lower (Py.sub_non_alpha text)))).
  { destruct H as [-> | H]; [constructor | exact H]. }
  unfold clean_text. cbn zeta.
  replace (filter _ _) with (@nil string); [reflexivity |].
  symmetry. clear H.
  induction Hall as [|word ws Hw _ IH]; [reflexivity |].
  cbn [filter]. now rewrite Hw.
Qed.

(** C9: a cleaned string holds only lower-case letters a-z and spaces; no
    two spaces are adjacent and none leads or trails; cut at its spaces it
    gives words, none of them a stop word, and it is those words joined by
    single spaces. *)
Theorem clean_text_shape (text : string) :
  let out := clean_text stop_words text in
  Py.all_chars lower_or_space out = true
  /\ double_space out = false
  /\ leading_space out = false
  /\ trailing_space out = false
  /\ Forall (fun word => is_word word = true
                         /\ Py.contains stop_words word = false)
            (Py.split out)
  /\ Py.join " " (Py.split out) = out.
Proof.
  cbn zeta. rewrite clean_text_tokens.
  pose proof (tokens_words stop_words text) as Hwords.
  pose proof (tokens_kept stop_words text) as Hkept.
  assert (Hsp : Forall spaceless (tokens stop_words text)).
  { eapply Forall_impl; [|exact Hwords]. intro t. apply is_word_spaceless. }
  rewrite (split_join _ Hsp).
  repeat split.
  - now apply join_words_lower_or_space.
  - now apply double_space_join.
  - now apply leading_space_join.
  - now apply trailing_space_join.
  - rewrite Forall_forall in *. intros t Hin. split; [now apply Hwords |].
    specialize (Hkept t Hin). unfold kept in Hkept.
    now apply negb_true_iff in Hkept.
Qed.

End CleanerClaims.

Lemma clean_text_composition_witness :
  Py.contains ["i"; "me"; "the"; "and"] "hello" = false
  /\ Py.contains ["i"; "me"; "the"; "and"] "world" = false
  /\ clean_text ["i"; "me"; "the"; "and"] "Hello World! 123" = "hello world".
Proof.
  split; [reflexivity | split; [reflexivity |]].
  exact (proj2 (clean_text_composition ["i"; "me"; "the"; "and"])
           eq_refl eq_refl).
Defined.

Lemma clean_text_all_stop_words_witness :
  Forall (fun word => Py.contains ["i"; "me"; "the"; "and"] word = true)
         (Py.split (Py.lower (Py.sub_non_alpha "The, AND me!")))
  /\ clean_text ["i"; "me"; "the"; "and"] "The, AND me!" = "".
Proof.
  assert (H : Forall (fun word => Py.contains ["i"; "me"; "the"; "and"] word = true)
                (Py.split (Py.lower (Py.sub_non_alpha "The, AND me!")))).
  { repeat constructor. }
  split; [exact H |].
  exact (clean_text_all_stop_words ["i"; "me"; "the"; "and"] "The, AND me!"
           (or_intror H)).
Defined.

Example clean_text_samples :
  clean_text ["i"; "me"; "the"; "and"] "I love THE cat's hat -- 100%!"
  = "love cat s hat"
  /\ clean_text ["i"; "me"; "the"; "and"] "" = ""
  /\ clean_text ["i"; "me"; "the"; "and"] "  42  " = "".
Proof. repeat split. Qed.

(** * Further properties *)

(** Each login is decided by the history of registrations: from a freshly
    initialised database, [login_user u p] returns a record exactly when one of
    the registrations made was for [u] with password [p] and succeeded. *)
Theorem login_user_registration_history (regs : list user) (u p : string) :
  (exists r,
     fst (login_user u p (replay regs (init_db None))) = Returns (Some r))
  <-> (exists before n after,
         regs = before ++ mkUser u n p :: after
         /\ fst (register_user u n p (replay before (init_db None)))
            = Returns (true, "User registered successfully.")).
Proof.
  destruct (replay_some regs []) as [t Et].
  change (Some []) with (init_db None) in Et. rewrite Et.
  cbn [login_user fst]. split.
  - intros [r H]. injection H as H.
    apply select_user_some in H as (Hin & Hu & Hp).
    apply (replay_rows regs t Et) in Hin as (before & after & E & Hok).
    exists before, (name r), after. subst u p.
    now rewrite user_eta.
  - intros (before & n & after & E & Hok).
    assert (Hin : In (mkUser u n p) t).
    { apply (replay_rows regs t Et). now exists before, after. }
    destruct (select_user_found u p t _ Hin eq_refl eq_refl) as [r' Er].
    exists r'. now rewrite Er.
Qed.

(** The primary key is an invariant of the program: whatever calls are made,
    no two rows of the users table share a username. *)
Theorem users_table_stays_unique {matrix : Type} (history : list (call matrix))
    (w : world matrix) (t : table) :
  users_db w = Some t -> unique_usernames t ->
  exists t', users_db (run history w) = Some t' /\ unique_usernames t'.
Proof.
  revert w t. induction history as [|c cs IH]; intros w t Hdb Hu.
  - now exists t.
  - cbn [run].
    destruct (exec_users_db matrix c w t Hdb) as [H | (r & Hfree & H)].
    + now apply (IH _ t).
    + apply (IH _ (t ++ [r]) H).
      apply (insert_user_unique r t); [exact Hu |].
      now apply insert_user_fresh.
Qed.

Lemma users_table_stays_unique_witness :
  exists t',
    users_db (run [RegisterUser "alice" "Alice" "pw1";
                   RegisterUser "alice" "Bob" "pw2";
                   LoginUser "alice" "pw1"]
                  quiet_world) = Some t'
    /\ unique_usernames t'.
Proof.
  apply (users_table_stays_unique _ quiet_world []); [reflexivity |].
  constructor.
Defined.

(** The users table only grows: no call removes or rewrites a stored row. *)
Theorem users_table_append_only {matrix : Type} (history : list (call matrix))
    (w : world matrix) (t : table) :
  users_db w = Some t ->
  exists added, users_db (run history w) = Some (t ++ added).
Proof.
  revert w t. induction history as [|c cs IH]; intros w t Hdb.
  - exists []. now rewrite app_nil_r.
  - cbn [run].
    destruct (exec_users_db matrix c w t Hdb) as [H | (r & _ & H)].
    + now apply IH.
    + destruct (IH _ _ H) as [added Ha].
      exists (r :: added). rewrite Ha. now rewrite <- app_assoc.
Qed.

Lemma users_table_append_only_witness :
  exists added,
    users_db (run [RegisterUser "bob" "Bob" "pw3";
                   RegisterUser "alice" "Mallory" "pw2";
                   InitDb;
                   LoginUser "alice" "pw1"]
                  member_world)
    = Some ([mkUser "alice" "Alice" "pw1"] ++ added).
Proof.
  exact (users_table_append_only _ member_world
           [mkUser "alice" "Alice" "pw1"] eq_refl).
Defined.

(** A character outside a-zA-Z only separates words: the cleaned text of
    [a ++ c ++ b] is made of the words of [a] followed by the words of [b],
    whichever such character [c] is. *)
Theorem clean_text_separator (stop_words : list string) (a b : string)
    (c : ascii) :
  Py.is_alpha c = false ->
  clean_text stop_words (a ++ String c b)
  = Py.join " " (tokens stop_words a ++ tokens stop_words b)
  /\ clean_text stop_words (a ++ String c b)
     = clean_text stop_words (a ++ String " " b).
Proof.
  intro Hc. rewrite !clean_text_tokens.
  rewrite (tokens_app_non_alpha stop_words a b c Hc).
  now rewrite (tokens_app_non_alpha stop_words a b " " eq_refl).
Qed.

Lemma clean_text_separator_witness :
  Py.is_alpha "233" = false
  /\ clean_text ["the"] ("caf" ++ String "233" " the bar")
     = clean_text ["the"] ("caf" ++ String " " " the bar").
Proof.
  split; [reflexivity |].
  exact (proj2 (clean_text_separator ["the"] "caf" " the bar" "233" eq_refl)).
Defined.

(** A missing pickle ends the analysis page with the exception, after the
    header and before anything else is shown. *)
Theorem run_sentiment_analysis_missing_model {matrix : Type} (w : world matrix)
    (ui : widgets) :
  model_pkl w (model_choice ui ++ "_model.pkl") = None
  \/ vectorizer_pkl w (model_choice ui ++ "_vectorizer.pkl") = None ->
  run_sentiment_analysis w ui
  = ([Header "Sentiment Analysis"], Raises FileNotFoundError).
Proof.
  intro H. unfold run_sentiment_analysis, load_model.
  destruct (model_pkl w _) as [model|]; [|reflexivity].
  destruct H as [H | H]; [discriminate H |]. now rewrite H.
Qed.

Lemma run_sentiment_analysis_missing_model_witness :
  run_sentiment_analysis quiet_world
    {| model_choice := "svm"; option_ := "Input text"; user_text := "fine";
       analyze := true; twitter_user := ""; fetch_and_analyze := false |}
  = ([Header "Sentiment Analysis"], Raises FileNotFoundError).
Proof.
  apply run_sentiment_analysis_missing_model. left. reflexivity.
Defined.

(** * The rest of the program *)

(** ** The credential store over time *)

Lemma find_app {A : Type} (f : A -> bool) (l1 l2 : list A) :
  find f (l1 ++ l2)
  = match find f l1 with
    | Some x => Some x
    | None => find f l2
    end.
Proof.
  induction l1 as [|x l1 IH]; [reflexivity |].
  simpl. destruct (f x); [reflexivity | exact IH].
Qed.

Lemma find_all_false {A : Type} (f : A -> bool) (l : list A) :
  Forall (fun x => f x = false) l -> find f l = None.
Proof.
  induction 1 as [|x l Hx _ IH]; [reflexivity |].
  simpl. now rewrite Hx.
Qed.

Lemma has_username_false (u : string) (t : table) :
  has_username u t = false <->
  Forall (fun r => (username r =? u) = false) t.
Proof.
  unfold has_username. induction t as [|r t IH]; simpl.
  - split; [constructor | reflexivity].
  - rewrite orb_false_iff, IH. split.
    + intros [Hr Ht]. now constructor.
    + intro H. inversion H; subst. now split.
Qed.

Lemma has_username_app (u : string) (t1 t2 : table) :
  has_username u (t1 ++ t2) = has_username u t1 || has_username u t2.
Proof. unfold has_username. apply existsb_app. Qed.

(** Whatever calls are made, the table is the earlier one followed by rows
    whose usernames the earlier one did not hold. *)
Lemma run_users_db_grows {matrix : Type} (history : list (call matrix)) :
  forall (w : world matrix) (t : table),
  users_db w = Some t ->
  exists added,
    users_db (run history w) = Some (t ++ added)
    /\ Forall (fun r => has_username (username r) t = false) added.
Proof.
  induction history as [|c cs IH]; intros w t Hdb.
  - exists []. rewrite app_nil_r. now split.
  - cbn [run].
    destruct (exec_users_db matrix c w t Hdb) as [H | (r & Hfree & H)].
    + now apply IH.
    + destruct (IH _ _ H) as (added & Ha & Hall).
      exists (r :: added). split; [now rewrite Ha, <- app_assoc |].
      constructor; [exact Hfree |].
      eapply Forall_impl; [|exact Hall]. intros r' Hr'. cbn beta in *.
      rewrite has_username_app in Hr'. now apply orb_false_iff in Hr'.
Qed.

Lemma select_user_registered (t added : table) (u n p p' : string) :
  has_username u t = false ->
  Forall (fun r => has_username (username r) (t ++ [mkUser u n p]) = false)
         added ->
  select_user u p' ((t ++ [mkUser u n p]) ++ added)
  = if p =? p' then Some (mkUser u n p) else None.
Proof.
  intros Hfree Hall. unfold select_user. rewrite !find_app.
  rewrite find_all_false.
  2:{ apply has_username_false in Hfree.
      eapply Forall_impl; [|exact Hfree]. intros r Hr. cbn beta.
      now rewrite Hr. }
  cbn [find username password]. rewrite String.eqb_refl. cbn [andb].
  destruct (p =? p'); [reflexivity |].
  apply find_all_false. eapply Forall_impl; [|exact Hall].
  intros r Hr. cbn beta in *.
  rewrite has_username_app in Hr. apply orb_false_iff in Hr as [_ Hr].
  unfold has_username in Hr. cbn [existsb username] in Hr.
  rewrite orb_false_r, String.eqb_sym in Hr. now rewrite Hr.
Qed.

(** Once a registration has succeeded, its username and password log in, and
    no other password does, whatever calls come after: the row can be neither
    replaced nor shadowed by a later registration. *)
Theorem registration_is_durable {matrix : Type} (w : world matrix)
    (t : table) (u n p p' : string) (history : list (call matrix)) :
  users_db w = Some t ->
  has_username u t = false ->
  fst (login_user u p'
         (users_db (run history (snd (exec (RegisterUser u n p) w)))))
  = Returns (if p =? p' then Some (mkUser u n p) else None).
Proof.
  intros Hdb Hfree.
  assert (H1 : users_db (snd (exec (RegisterUser u n p) w))
               = Some (t ++ [mkUser u n p])).
  { cbn [exec]. rewrite Hdb.
    destruct (register_user_cases u n p t) as [[_ E] | [Ht _]];
      [now rewrite E | congruence]. }
  destruct (run_users_db_grows history _ _ H1) as (added & Ha & Hall).
  rewrite Ha. cbn [login_user fst]. f_equal.
  now apply select_user_registered.
Qed.

Lemma registration_is_durable_witness :
  fst (login_user "alice" "pw1"
         (users_db (run [RegisterUser "alice" "Mallory" "pw2";
                         RegisterUser "bob" "Bob" "pw1";
                         InitDb]
                        (snd (exec (RegisterUser "alice" "Alice" "pw1")
                                   quiet_world)))))
  = Returns (Some (mkUser "alice" "Alice" "pw1")).
Proof.
  exact (registration_is_durable quiet_world [] "alice" "Alice" "pw1" "pw1"
           _ eq_refl eq_refl).
Defined.

(** [init_db] creates the table only when it is missing, keeps the rows of an
    existing one, and can be repeated; after it neither store operation
    raises, while on a file without the table both raise and create
    nothing. *)
Theorem init_db_creates_if_absent (db : database) (u n p : string) :
  init_db None = Some []
  /\ (forall t, db = Some t -> init_db db = Some t)
  /\ init_db (init_db db) = init_db db
  /\ (exists r, fst (register_user u n p (init_db db)) = Returns r)
  /\ (exists r, fst (login_user u p (init_db db)) = Returns r)
  /\ register_user u n p None = (Raises OperationalError, None)
  /\ login_user u p None = (Raises OperationalError, None).
Proof.
  split; [reflexivity |]. split; [now intros t -> |].
  split; [now destruct db |].
  assert (Ht : exists t, init_db db = Some t).
  { destruct db as [t|]; [now exists t | now exists []]. }
  destruct Ht as [t ->]. repeat split.
  - destruct (register_user_cases u n p t) as [[_ E] | [_ E]];
      rewrite E; eexists; reflexivity.
  - eexists. reflexivity.
Qed.

(** ** The remote fetch *)

Lemma comprehension_returns {A B : Type} (f : A -> outcome B) (xs : list A) :
  forall ys,
  comprehension f xs = Returns ys <->
  Forall2 (fun x y => f x = Returns y) xs ys.
Proof.
  induction xs as [|x xs IH]; intro ys; cbn [comprehension].
  - split.
    + intro H. injection H as <-. constructor.
    + intro H. inversion H. reflexivity.
  - destruct (f x) as [y|e] eqn:Ex; cbn [bind].
    + destruct (comprehension f xs) as [ys'|e] eqn:Exs; cbn [bind].
      * split.
        -- intro H. injection H as <-. constructor; [exact Ex |].
           now apply IH.
        -- intro H. inversion H as [|? y0 ? ys0 Hy Hys]; subst.
           rewrite Ex in Hy. injection Hy as <-.
           apply IH in Hys. now injection Hys as <-.
      * split; [discriminate |].
        intro H. inversion H as [|? y0 ? ys0 Hy Hys]; subst.
        apply IH in Hys. discriminate Hys.
    + split; [discriminate |].
      intro H. inversion H as [|? y0 ? ys0 Hy Hys]; subst.
      rewrite Ex in Hy. discriminate Hy.
Qed.

Lemma item_lookup {V : Type} (d : dict V) (key : string) (v : V) :
  item d key = Returns v <-> lookup key d = Some v.
Proof.
  unfold item. destruct (lookup key d) as [v'|].
  - split; intro H; now injection H as <-.
  - split; discriminate.
Qed.

Lemma texts_raise (tweets : list tweet) (e : exn) :
  comprehension (fun tweet => item tweet "text") tweets = Raises e <->
  e = KeyError /\ Exists (fun tweet => lookup "text" tweet = None) tweets.
Proof.
  induction tweets as [|tw tweets IH]; cbn [comprehension].
  - split; [discriminate | intros [_ H]; inversion H].
  - unfold item at 1. destruct (lookup "text" tw) as [tx|] eqn:Etw; cbn [bind].
    + destruct (comprehension (fun tw' : dict string => item tw' "text") tweets)
        as [texts|e']; cbn [bind].
      * split; [discriminate |]. intros [He H].
        inversion H as [? ? Hhd | ? ? Htl]; subst; [congruence |].
        discriminate (proj2 IH (conj eq_refl Htl)).
      * split.
        -- intro H. apply IH in H as [He Hex]. split; [exact He |].
           now apply Exists_cons_tl.
        -- intros [He H]. apply IH. split; [exact He |].
           inversion H as [? ? Hhd | ? ? Htl]; subst; [congruence | exact Htl].
    + split.
      * intro H. injection H as <-. split; [reflexivity |].
        now apply Exists_cons_hd.
      * intros [-> _]. reflexivity.
Qed.

Section FetchFacts.

Context {matrix : Type}.
Variables (w : world matrix) (u : string) (scraper : Scraper)
          (data : tweets_data).
Hypothesis installed : Nitter w = Some (Returns scraper).
Hypothesis fetched : scraper_get_tweets scraper u "user" 5 = Returns data.

Lemma get_tweets_fetched :
  get_tweets w u
  = comprehension (fun tweet => item tweet "text") (get data "tweets" []).
Proof.
  unfold get_tweets. rewrite installed. cbn [bind]. now rewrite fetched.
Qed.

(** When the remote call returns, [get_tweets] returns the texts of the
    tweets of the ['tweets'] entry, one for each and in their order: as many
    as the library handed over, be it more than the five asked for. *)
Theorem get_tweets_texts (texts : list string) :
  (get_tweets w u = Returns texts <->
   Forall2 (fun tweet text => lookup "text" tweet = Some text)
           (get data "tweets" []) texts)
  /\ (get_tweets w u = Returns texts ->
      List.length texts = List.length (get data "tweets" [])).
Proof.
  rewrite get_tweets_fetched, comprehension_returns.
  assert (Hiff : Forall2 (fun tweet text => item tweet "text" = Returns text)
                   (get data "tweets" []) texts
                 <-> Forall2 (fun tweet text => lookup "text" tweet = Some text)
                       (get data "tweets" []) texts).
  { split; intro H; (eapply Forall2_impl; [|exact H]);
      intros tw tx; apply item_lookup. }
  split; [exact Hiff |].
  intro H. symmetry. exact (Forall2_length H).
Qed.

(** When the remote call returns, [get_tweets] raises exactly when one of
    the tweets has no ['text'] field, and what it raises is [KeyError]. *)
Theorem get_tweets_key_error (e : exn) :
  get_tweets w u = Raises e <->
  e = KeyError
  /\ exists tweet, In tweet (get data "tweets" [])
                   /\ lookup "text" tweet = None.
Proof.
  rewrite get_tweets_fetched, texts_raise, Exists_exists. reflexivity.
Qed.

End FetchFacts.

Lemma get_tweets_texts_witness :
  get_tweets busy_world "nasa"
  = Returns ["good movie"; "bad movie"; "A good movie!"; "so so";
             "the good movie"; "sixth"]
  /\ List.length ["good movie"; "bad movie"; "A good movie!"; "so so";
                  "the good movie"; "sixth"]
     = List.length
         (get [("tweets",
                [[("text", "good movie")]; [("text", "bad movie")];
                 [("text", "A good movie!")]; [("text", "so so")];
                 [("text", "the good movie")]; [("text", "sixth")]]);
               ("threads", @nil tweet)] "tweets" []).
Proof.
  pose proof (get_tweets_texts busy_world "nasa" _ _ eq_refl eq_refl
                ["good movie"; "bad movie"; "A good movie!"; "so so";
                 "the good movie"; "sixth"]) as [Hiff Hlen].
  assert (H : get_tweets busy_world "nasa"
              = Returns ["good movie"; "bad movie"; "A good movie!"; "so so";
                         "the good movie"; "sixth"]).
  { apply Hiff. repeat constructor. }
  split; [exact H | exact (Hlen H)].
Defined.

Lemma get_tweets_key_error_witness :
  get_tweets broken_world "nasa" = Raises KeyError.
Proof.
  apply (get_tweets_key_error broken_world "nasa" _ _ eq_refl eq_refl).
  split; [reflexivity |].
  exists [("link", "https://x/1")]. split; [right; left; reflexivity |].
  reflexivity.
Defined.

(** ** Prediction *)

Lemma tokens_join_tokens (stop_words : list string) (text : string) :
  tokens stop_words (Py.join " " (tokens stop_words text))
  = tokens stop_words text.
Proof.
  unfold tokens at 1.
  rewrite split_norm_join by apply tokens_words.
  apply filter_all, tokens_kept.
Qed.

(** The classifier is asked about the cleaned text only: a text and its
    cleaned form get the same answer, and so do two texts that differ in the
    character, outside a-zA-Z, that stands between two parts. *)
Theorem predict_sentiment_of_cleaned {matrix : Type} (stop_words : list string)
    (model : Classifier matrix) (vectorizer : Vectorizer matrix)
    (text a b : string) (c : ascii) :
  predict_sentiment stop_words (clean_text stop_words text) model vectorizer
  = predict_sentiment stop_words text model vectorizer
  /\ (Py.is_alpha c = false ->
      predict_sentiment stop_words (a ++ String c b) model vectorizer
      = predict_sentiment stop_words (a ++ String " " b) model vectorizer).
Proof.
  split.
  - unfold predict_sentiment. cbn zeta.
    now rewrite !clean_text_tokens, tokens_join_tokens.
  - intro Hc. unfold predict_sentiment. cbn zeta.
    rewrite !clean_text_tokens.
    rewrite (tokens_app_non_alpha stop_words a b c Hc).
    now rewrite (tokens_app_non_alpha stop_words a b " " eq_refl).
Qed.

(** How [predict_sentiment] ends, on any two objects: it raises what
    [transform] raises, else what [predict] raises, else [IndexError] when
    the array of predictions is empty, and in no other case; it returns
    exactly when both methods return and there is a first prediction, and the
    label is then Positive or Negative by that prediction. *)
Theorem predict_sentiment_outcomes {matrix V M : Type}
    (vectorizer_class : VectorizerClass matrix V)
    (model_class : ClassifierClass matrix M)
    (stop_words : list string) (text : string) (model : M) (vectorizer : V) :
  let ended :=
    fst (predict_sentiment_call vectorizer_class model_class stop_words
           text model vectorizer) in
  let transformed :=
    fst (transform_method vectorizer_class vectorizer
           [clean_text stop_words text]) in
  let predicted vector := fst (predict_method model_class model vector) in
  (forall e,
     ended = Raises e <->
     transformed = Raises e
     \/ exists vector,
          transformed = Returns vector
          /\ (predicted vector = Raises e
              \/ (predicted vector = Returns [] /\ e = IndexError)))
  /\ (forall s,
        ended = Returns s <->
        exists vector prediction rest,
          transformed = Returns vector
          /\ predicted vector = Returns (prediction :: rest)
          /\ s = if eq_one prediction then "Positive" else "Negative")
  /\ (forall s, ended = Returns s -> s = "Positive" \/ s = "Negative").
Proof.
  cbn zeta. unfold predict_sentiment_call. cbn zeta.
  destruct (transform_method vectorizer_class vectorizer _)
    as [[vector|e0] vectorizer']; cbn [fst].
  - destruct (predict_method model_class model vector)
      as [[[|prediction rest]|e1] model'] eqn:Ep; cbn [fst].
    + split; [|split].
      * intro e. split.
        -- intro H. injection H as <-. right. exists vector.
           rewrite Ep. cbn [fst]. split; [reflexivity | right; now split].
        -- intros [H | (vector' & H & [Hp | [_ ->]])];
             [discriminate H | | reflexivity].
           injection H as <-. rewrite Ep in Hp. discriminate Hp.
      * intro s. split; [discriminate |].
        intros (vector' & p & r & H & Hp & _).
        injection H as <-. rewrite Ep in Hp. discriminate Hp.
      * discriminate.
    + split; [|split].
      * intro e. split; [discriminate |].
        intros [H | (vector' & H & [Hp | [Hp _]])]; [discriminate H | |];
          injection H as <-; rewrite Ep in Hp; discriminate Hp.
      * intro s. split.
        -- intro H. injection H as <-. exists vector, prediction, rest.
           rewrite Ep. now repeat split.
        -- intros (vector' & p & r & H & Hp & ->).
           injection H as <-. rewrite Ep in Hp. cbn [fst] in Hp.
           now injection Hp as <- <-.
      * intros s H. injection H as <-. destruct (eq_one prediction); auto.
    + split; [|split].
      * intro e. split.
        -- intro H. injection H as <-. right. exists vector.
           rewrite Ep. cbn [fst]. split; [reflexivity | now left].
        -- intros [H | (vector' & H & [Hp | [Hp _]])]; [discriminate H | |];
             injection H as <-; rewrite Ep in Hp; cbn [fst] in Hp;
             [now injection Hp as <- | discriminate Hp].
      * intro s. split; [discriminate |].
        intros (vector' & p & r & H & Hp & _).
        injection H as <-. rewrite Ep in Hp. discriminate Hp.
      * discriminate.
  - split; [|split].
    + intro e. split.
      * intro H. injection H as <-. now left.
      * intros [H | (vector' & H & _)]; [now injection H as <- |
                                          discriminate H].
    + intro s. split; [discriminate |].
      intros (vector' & p & r & H & _). discriminate H.
    + discriminate.
Qed.

Example predict_sentiment_call_unfitted :
  predict_sentiment_call unfitted_vectorizer (fitted_classifier toy_classifier)
    [] "fine" tt tt
  = (Raises EstimatorError, (tt, tt)).
Proof. reflexivity. Qed.

(** ** The analysis page *)

Section PageFacts.

Context {matrix : Type}.
Variables (w : world matrix) (model : Classifier matrix)
          (vectorizer : Vectorizer matrix).

(** The loop over the fetched tweets renders one card for each, in order, each
    with the tweet's own label; it stops at the first tweet for which the
    prediction raises, keeps the cards rendered before it, and ends with that
    tweet's exception. *)
Theorem analyze_tweets_cards (tweets : list string) :
  exists done,
    Forall2 (card_of w model vectorizer) done
            (fst (analyze_tweets w model vectorizer tweets))
    /\ ((done = tweets
         /\ snd (analyze_tweets w model vectorizer tweets) = Returns tt)
        \/ exists tweet rest e,
             tweets = done ++ tweet :: rest
             /\ predict_sentiment (stop_words w) tweet model vectorizer
                = Raises e
             /\ snd (analyze_tweets w model vectorizer tweets) = Raises e).
Proof.
  induction tweets as [|tweet tweets IH]; cbn [analyze_tweets].
  - exists []. split; [constructor | now left].
  - destruct (predict_sentiment (stop_words w) tweet model vectorizer)
      as [sentiment|e] eqn:Ep.
    + destruct IH as (done & Hcards & Hend).
      destruct (analyze_tweets w model vectorizer tweets) as [shown r].
      cbn [fst snd] in *. exists (tweet :: done). split.
      * constructor; [|exact Hcards]. now exists sentiment.
      * destruct Hend as [[-> Hr] | (tw & rest & e & -> & Hp & Hr)].
        -- now left.
        -- right. now exists tw, rest, e.
    + exists []. split; [constructor |].
      right. now exists tweet, tweets, e.
Qed.

(** The classifier hands back a prediction for every one-document matrix. *)
Hypothesis classifier_answers :
  forall doc, predict model (transform vectorizer [doc]) <> [].

Lemma predict_sentiment_returns (text : string) :
  exists sentiment,
    predict_sentiment (stop_words w) text model vectorizer = Returns sentiment.
Proof.
  unfold predict_sentiment. cbn zeta.
  destruct (predict model _) as [|p rest] eqn:E.
  - now apply classifier_answers in E.
  - eexists. reflexivity.
Qed.

Lemma analyze_tweets_total (tweets : list string) :
  exists cards,
    analyze_tweets w model vectorizer tweets = (cards, Returns tt)
    /\ Forall2 (card_of w model vectorizer) tweets cards.
Proof.
  induction tweets as [|tweet tweets IH]; cbn [analyze_tweets].
  - exists []. split; [reflexivity | constructor].
  - destruct (predict_sentiment_returns tweet) as [sentiment Ep]. rewrite Ep.
    destruct IH as (cards & -> & Hcards).
    exists (Markdown (tweet_card tweet sentiment) :: cards).
    split; [reflexivity |]. constructor; [now exists sentiment | exact Hcards].
Qed.

Variable ui : widgets.
Hypothesis loaded : load_model w (model_choice ui) = Returns (model, vectorizer).


(** In the tweets mode, when the fetch returns tweets, the page is its header
    followed by one card for each fetched tweet, in the order fetched, each
    with the tweet's own label. *)
Theorem run_sentiment_analysis_shows_tweets (texts : list string) :
  option_ ui = "Analyze tweets from username" ->
  fetch_and_analyze ui = true ->
  get_tweets w (twitter_user ui) = Returns texts ->
  texts <> [] ->
  exists cards,
    run_sentiment_analysis w ui
    = (Header "Sentiment Analysis" :: cards, Returns tt)
    /\ Forall2 (card_of w model vectorizer) texts cards
    /\ List.length cards = List.length texts.
Proof.
  intros Hopt Hclick Hfetch Hsome.
  assert (Havail : SCRAPER_AVAILABLE w = true).
  { unfold SCRAPER_AVAILABLE. unfold get_tweets in Hfetch.
    destruct (Nitter w); [reflexivity |].
    injection Hfetch as <-. congruence. }
  destruct (analyze_tweets_total texts) as (cards & Hrun & Hcards).
  exists cards. split; [|split; [exact Hcards |]].
  - unfold run_sentiment_analysis.
    rewrite loaded, Hopt, Havail, Hclick, Hfetch. cbn [String.eqb negb].
    destruct texts as [|text texts']; [congruence |].
    now rewrite Hrun.
  - symmetry. exact (Forall2_length Hcards).
Qed.

End PageFacts.

Lemma toy_classifier_answers (doc : string) :
  predict toy_classifier (transform toy_vectorizer [doc]) <> [].
Proof. discriminate. Qed.


Lemma run_sentiment_analysis_shows_tweets_witness :
  exists cards,
    run_sentiment_analysis busy_world fetch_page
    = (Header "Sentiment Analysis" :: cards, Returns tt)
    /\ List.length cards = 6.
Proof.
  destruct (run_sentiment_analysis_shows_tweets busy_world toy_classifier
              toy_vectorizer toy_classifier_answers fetch_page eq_refl
              ["good movie"; "bad movie"; "A good movie!"; "so so";
               "the good movie"; "sixth"] eq_refl eq_refl eq_refl)
    as (cards & Hpage & _ & Hlen).
  - discriminate.
  - exists cards. split; [exact Hpage | exact Hlen].
Defined.

Example busy_page :
  run_sentiment_analysis busy_world fetch_page
  = ([Header "Sentiment Analysis";
      Markdown (tweet_card "good movie" "Positive");
      Markdown (tweet_card "bad movie" "Negative");
      Markdown (tweet_card "A good movie!" "Positive");
      Markdown (tweet_card "so so" "Negative");
      Markdown (tweet_card "the good movie" "Positive");
      Markdown (tweet_card "sixth" "Negative")], Returns tt).
Proof. reflexivity. Qed.

(** ** The controller *)

Section ControllerFacts.

Context {matrix : Type}.

Lemma init_db_some (db : database) : exists t, init_db db = Some t.
Proof. destruct db as [t|]; [now exists t | now exists []]. Qed.

Lemma analyze_tweets_with_users_db (w : world matrix) (db : database)
    (model : Classifier matrix) (vectorizer : Vectorizer matrix)
    (tweets : list string) :
  analyze_tweets (with_users_db w db) model vectorizer tweets
  = analyze_tweets w model vectorizer tweets.
Proof.
  induction tweets as [|tweet tweets IH]; cbn [analyze_tweets];
    [reflexivity |].
  cbn [stop_words with_users_db]. now rewrite IH.
Qed.

(** The analysis page reads nothing of the users table. *)
Lemma run_sentiment_analysis_with_users_db (w : world matrix) (db : database)
    (ui : widgets) :
  run_sentiment_analysis (with_users_db w db) ui = run_sentiment_analysis w ui.
Proof.
  unfold run_sentiment_analysis, load_model, get_tweets, SCRAPER_AVAILABLE.
  cbn [with_users_db model_pkl vectorizer_pkl Nitter stop_words].
  destruct (model_pkl w _) as [model|]; [|reflexivity].
  destruct (vectorizer_pkl w _) as [vectorizer|]; [|reflexivity].
  destruct (option_ ui =? "Input text"); [reflexivity |].
  destruct (option_ ui =? "Analyze tweets from username"); [|reflexivity].
  destruct (Nitter w) as [constructed|]; [|reflexivity]. cbn [negb].
  destruct (fetch_and_analyze ui); [|reflexivity].
  destruct (bind constructed _) as [[|tweet tweets]|e]; try reflexivity.
  now rewrite analyze_tweets_with_users_db.
Qed.

Variables (w : world matrix) (f : form) (t : table).
Hypothesis table_after_init : init_db (users_db w) = Some t.

Lemma main_register_run :
  choice f = "Register" -> register_button f = true ->
  main w f
  = (([Title "Sentiment Analyzer with User Auth";
       Subheader "Create New Account";
       if has_username (username_input f) t
       then ErrorBox "Username already exists."
       else SuccessBox "User registered successfully."], Returns tt),
     with_users_db (with_users_db w (Some t))
       (Some (if has_username (username_input f) t then t
              else t ++ [mkUser (username_input f) (name_input f)
                                (password_input f)]))).
Proof.
  intros Hc Hb. unfold main. cbn zeta. rewrite Hc, Hb, table_after_init.
  cbn [String.eqb Ascii.eqb Bool.eqb users_db with_users_db].
  destruct (register_user_cases (username_input f) (name_input f)
              (password_input f) t) as [[Hu E] | [Hu E]];
    rewrite E, Hu; reflexivity.
Qed.

Lemma main_login_run :
  choice f = "Login" -> login_button f = true ->
  main w f
  = match select_user (username_input f) (password_input f) t with
    | Some user =>
        let (page, r) := run_sentiment_analysis w (analysis_widgets f) in
        (([Title "Sentiment Analyzer with User Auth"; Subheader "Login";
           SuccessBox ("Welcome " ++ name user ++ "!")] ++ map Analysis page,
          r),
         with_users_db (with_users_db w (Some t)) (Some t))
    | None =>
        (([Title "Sentiment Analyzer with User Auth"; Subheader "Login";
           ErrorBox "Invalid credentials"], Returns tt),
         with_users_db (with_users_db w (Some t)) (Some t))
    end.
Proof.
  intros Hc Hb. unfold main. cbn zeta. rewrite Hc, Hb, table_after_init.
  cbn [String.eqb Ascii.eqb Bool.eqb users_db with_users_db login_user].
  destruct (select_user _ _ t) as [user|]; [|reflexivity].
  rewrite !run_sentiment_analysis_with_users_db.
  now destruct (run_sentiment_analysis w (analysis_widgets f)).
Qed.

Lemma main_idle_run :
  (choice f = "Register" -> register_button f = false) ->
  (choice f = "Login" -> login_button f = false) ->
  snd (fst (main w f)) = Returns tt
  /\ snd (main w f) = with_users_db w (Some t)
  /\ forall e, ~ In (Analysis e) (fst (fst (main w f))).
Proof.
  intros Hr Hl. unfold main. cbn zeta. rewrite table_after_init.
  destruct (String.eqb_spec (choice f) "Register") as [E | _].
  - rewrite (Hr E). cbn. repeat split. intros e [H | [H | []]]; discriminate.
  - destruct (String.eqb_spec (choice f) "Login") as [E | _].
    + rewrite (Hl E). cbn. repeat split.
      intros e [H | [H | []]]; discriminate.
    + cbn. repeat split. intros e [H | []]; discriminate.
Qed.

End ControllerFacts.

Section ControllerClaims.

Context {matrix : Type}.

Lemma main_users_db (w : world matrix) (f : form) (t : table) :
  init_db (users_db w) = Some t ->
  users_db (snd (main w f)) = Some t
  \/ exists r, has_username (username r) t = false
               /\ users_db (snd (main w f)) = Some (t ++ [r]).
Proof.
  intro Ht.
  destruct (String.eqb_spec (choice f) "Register") as [Er | Er].
  - destruct (register_button f) eqn:Eb.
    + rewrite (main_register_run w f t Ht Er Eb). cbn [snd users_db with_users_db].
      destruct (has_username (username_input f) t) eqn:Eu; [now left |].
      right.
      exists (mkUser (username_input f) (name_input f) (password_input f)).
      split; [exact Eu | reflexivity].
    + left. destruct (main_idle_run w f t Ht) as (_ & -> & _);
        [congruence | intro El; rewrite Er in El; discriminate El |
         reflexivity].
  - destruct (String.eqb_spec (choice f) "Login") as [El | El].
    + left. destruct (login_button f) eqn:Eb.
      * rewrite (main_login_run w f t Ht El Eb).
        destruct (select_user _ _ t); [|reflexivity].
        now destruct (run_sentiment_analysis w (analysis_widgets f)).
      * destruct (main_idle_run w f t Ht) as (_ & -> & _);
          [contradiction | congruence | reflexivity].
    + left. destruct (main_idle_run w f t Ht) as (_ & -> & _);
        [contradiction | contradiction | reflexivity].
Qed.

Lemma session_users_db_grows (fs : list form) :
  forall (w : world matrix) (t : table),
  users_db w = Some t ->
  exists added,
    users_db (session fs w) = Some (t ++ added)
    /\ Forall (fun r => has_username (username r) t = false) added.
Proof.
  induction fs as [|f fs IH]; intros w t Hdb.
  - exists []. rewrite app_nil_r. now split.
  - cbn [session].
    assert (Ht : init_db (users_db w) = Some t) by now rewrite Hdb.
    destruct (main_users_db w f t Ht) as [H | (r & Hfree & H)].
    + now apply IH.
    + destruct (IH _ _ H) as (added & Ha & Hall).
      exists (r :: added). split; [now rewrite Ha, <- app_assoc |].
      constructor; [exact Hfree |].
      eapply Forall_impl; [|exact Hall]. intros r' Hr'. cbn beta in *.
      rewrite has_username_app in Hr'. now apply orb_false_iff in Hr'.
Qed.

(** The analysis page is behind the login: a run of [main] renders an element
    of it only in the Login mode, with the button pressed, and when the table
    holds a row with the username and the password typed in. *)
Theorem main_analysis_requires_login (w : world matrix) (f : form)
    (e : element) :
  In (Analysis e) (fst (fst (main w f))) ->
  choice f = "Login"
  /\ login_button f = true
  /\ exists t r,
       init_db (users_db w) = Some t
       /\ In r t
       /\ username r = username_input f
       /\ password r = password_input f.
Proof.
  intro Hin. destruct (init_db_some (users_db w)) as [t Ht].
  assert (Hidle : (choice f = "Register" -> register_button f = false) ->
                  (choice f = "Login" -> login_button f = false) -> False).
  { intros Hr Hl.
    destruct (main_idle_run w f t Ht Hr Hl) as (_ & _ & Hno).
    exact (Hno e Hin). }
  destruct (String.eqb_spec (choice f) "Register") as [Er | Er].
  - destruct (register_button f) eqn:Eb.
    + rewrite (main_register_run w f t Ht Er Eb) in Hin. cbn [fst] in Hin.
      destruct Hin as [H | [H | [H | []]]]; try discriminate H.
      destruct (has_username _ t); discriminate H.
    + exfalso. apply Hidle; [reflexivity |].
      intro El. rewrite Er in El. discriminate El.
  - destruct (String.eqb_spec (choice f) "Login") as [El | El].
    + destruct (login_button f) eqn:Eb.
      * split; [exact El | split; [reflexivity |]].
        rewrite (main_login_run w f t Ht El Eb) in Hin.
        destruct (select_user _ _ t) as [user|] eqn:Es.
        -- exists t, user. split; [exact Ht |].
           now apply select_user_some.
        -- cbn [fst] in Hin.
           destruct Hin as [H | [H | [H | []]]]; discriminate H.
      * exfalso. apply Hidle; [contradiction | reflexivity].
    + exfalso. apply Hidle; contradiction.
Qed.

(** [main] creates the table before it uses it, so its own store operations
    never raise: a run ends with an exception only when a user has logged in
    (Login mode, button pressed, a stored row with the username and the
    password typed in) and the analysis page raised it. *)
Theorem main_raises_only_from_analysis (w : world matrix) (f : form)
    (e : exn) :
  snd (fst (main w f)) = Raises e ->
  choice f = "Login"
  /\ login_button f = true
  /\ (exists t r,
        init_db (users_db w) = Some t
        /\ In r t
        /\ username r = username_input f
        /\ password r = password_input f)
  /\ snd (run_sentiment_analysis w (analysis_widgets f)) = Raises e.
Proof.
  intro Hraise. destruct (init_db_some (users_db w)) as [t Ht].
  assert (Hidle : (choice f = "Register" -> register_button f = false) ->
                  (choice f = "Login" -> login_button f = false) -> False).
  { intros Hr Hl.
    destruct (main_idle_run w f t Ht Hr Hl) as (Hok & _ & _).
    rewrite Hok in Hraise. discriminate Hraise. }
  destruct (String.eqb_spec (choice f) "Register") as [Er | Er].
  - destruct (register_button f) eqn:Eb.
    + rewrite (main_register_run w f t Ht Er Eb) in Hraise.
      discriminate Hraise.
    + exfalso. apply Hidle; [reflexivity |].
      intro El. rewrite Er in El. discriminate El.
  - destruct (String.eqb_spec (choice f) "Login") as [El | El].
    + destruct (login_button f) eqn:Eb.
      * split; [exact El | split; [reflexivity |]].
        rewrite (main_login_run w f t Ht El Eb) in Hraise.
        destruct (select_user _ _ t) as [user|] eqn:Es;
          [|discriminate Hraise].
        split.
        -- exists t, user. split; [exact Ht |].
           now apply select_user_some.
        -- now destruct (run_sentiment_analysis w (analysis_widgets f)).
      * exfalso. apply Hidle; [contradiction | reflexivity].
    + exfalso. apply Hidle; contradiction.
Qed.

(** In the Register mode with the button pressed, [main] ends normally on any
    database file: when the username is free it shows the success message and
    the table gains the row typed in; when it is taken it shows the duplicate
    message and the table stays as it was. *)
Theorem main_register (w : world matrix) (f : form) :
  choice f = "Register" -> register_button f = true ->
  exists t,
    init_db (users_db w) = Some t
    /\ snd (fst (main w f)) = Returns tt
    /\ (has_username (username_input f) t = false ->
        fst (fst (main w f))
        = [Title "Sentiment Analyzer with User Auth";
           Subheader "Create New Account";
           SuccessBox "User registered successfully."]
        /\ users_db (snd (main w f))
           = Some (t ++ [mkUser (username_input f) (name_input f)
                                (password_input f)]))
    /\ (has_username (username_input f) t = true ->
        fst (fst (main w f))
        = [Title "Sentiment Analyzer with User Auth";
           Subheader "Create New Account";
           ErrorBox "Username already exists."]
        /\ users_db (snd (main w f)) = Some t).
Proof.
  intros Hc Hb. destruct (init_db_some (users_db w)) as [t Ht].
  exists t. rewrite (main_register_run w f t Ht Hc Hb).
  cbn [fst snd users_db with_users_db].
  split; [exact Ht | split; [reflexivity |]].
  split; intro Hu; rewrite Hu; split; reflexivity.
Qed.

(** In the Login mode with the button pressed, when no row has both the
    username and the password typed in, [main] shows the error message and
    nothing of the analysis page, ends normally, and leaves the table with
    the rows it had. *)
Theorem main_login_rejects (w : world matrix) (f : form) (t : table) :
  choice f = "Login" -> login_button f = true ->
  init_db (users_db w) = Some t ->
  (forall r, In r t ->
     username r <> username_input f \/ password r <> password_input f) ->
  fst (main w f)
  = ([Title "Sentiment Analyzer with User Auth"; Subheader "Login";
      ErrorBox "Invalid credentials"], Returns tt)
  /\ users_db (snd (main w f)) = Some t.
Proof.
  intros Hc Hb Ht Hno. rewrite (main_login_run w f t Ht Hc Hb).
  apply select_user_none in Hno. rewrite Hno. now split.
Qed.

Lemma main_world (w : world matrix) (f : form) :
  exists db, snd (main w f) = with_users_db w db.
Proof.
  destruct (init_db_some (users_db w)) as [t Ht].
  destruct (String.eqb_spec (choice f) "Register") as [Er | Er].
  - destruct (register_button f) eqn:Eb.
    + rewrite (main_register_run w f t Ht Er Eb). eexists. reflexivity.
    + destruct (main_idle_run w f t Ht) as (_ & -> & _);
        [congruence | intro El; rewrite Er in El; discriminate El |].
      eexists. reflexivity.
  - destruct (String.eqb_spec (choice f) "Login") as [El | El].
    + destruct (login_button f) eqn:Eb.
      * rewrite (main_login_run w f t Ht El Eb).
        destruct (select_user _ _ t); [|eexists; reflexivity].
        destruct (run_sentiment_analysis w (analysis_widgets f)).
        eexists. reflexivity.
      * destruct (main_idle_run w f t Ht) as (_ & -> & _);
          [contradiction | congruence |].
        eexists. reflexivity.
    + destruct (main_idle_run w f t Ht) as (_ & -> & _);
        [contradiction | contradiction |].
      eexists. reflexivity.
Qed.

(** Runs of [main] change nothing of the world but the users table. *)
Lemma session_world (fs : list form) :
  forall w : world matrix, exists db, session fs w = with_users_db w db.
Proof.
  induction fs as [|f fs IH]; intro w.
  - exists (users_db w). symmetry. apply with_users_db_same.
  - cbn [session]. destruct (main_world w f) as [db1 ->].
    destruct (IH (with_users_db w db1)) as [db2 ->].
    now exists db2.
Qed.

(** An account registered in one run logs in in every later run, whatever
    runs come between: the page then greets the user by the name given at
    registration and goes on with the analysis page, which it shows in full
    and whose outcome is the outcome of the run. *)
Theorem session_login_after_register (w : world matrix) (u n p : string)
    (fs : list form) (ui : widgets) :
  (forall t, init_db (users_db w) = Some t -> has_username u t = false) ->
  fst (main (session fs (snd (main w (register_form u n p))))
            (login_form u p ui))
  = ([Title "Sentiment Analyzer with User Auth"; Subheader "Login";
      SuccessBox ("Welcome " ++ n ++ "!")]
       ++ map Analysis (fst (run_sentiment_analysis w ui)),
     snd (run_sentiment_analysis w ui)).
Proof.
  intro Hfree. destruct (init_db_some (users_db w)) as [t Ht].
  specialize (Hfree t Ht).
  assert (H1 : users_db (snd (main w (register_form u n p)))
               = Some (t ++ [mkUser u n p])).
  { rewrite (main_register_run w (register_form u n p) t Ht eq_refl eq_refl).
    cbn [snd users_db with_users_db register_form username_input name_input
         password_input].
    now rewrite Hfree. }
  destruct (session_users_db_grows fs _ _ H1) as (added & Ha & Hall).
  assert (Ht' : init_db (users_db (session fs (snd (main w (register_form u n p)))))
                = Some ((t ++ [mkUser u n p]) ++ added)) by now rewrite Ha.
  assert (Hpage : run_sentiment_analysis
                    (session fs (snd (main w (register_form u n p)))) ui
                  = run_sentiment_analysis w ui).
  { destruct (main_world w (register_form u n p)) as [db1 ->].
    destruct (session_world fs (with_users_db w db1)) as [db2 ->].
    now rewrite !run_sentiment_analysis_with_users_db. }
  rewrite (main_login_run _ (login_form u p ui) _ Ht' eq_refl eq_refl).
  cbn [login_form username_input password_input analysis_widgets].
  rewrite (select_user_registered t added u n p p Hfree Hall).
  rewrite String.eqb_refl. cbn [name]. rewrite Hpage.
  now destruct (run_sentiment_analysis w ui) as [page r].
Qed.

End ControllerClaims.

Lemma main_analysis_requires_login_witness :
  In (Analysis (Header "Sentiment Analysis"))
     (fst (fst (main member_world (login_form "alice" "pw1" text_page))))
  /\ exists t r,
       init_db (users_db member_world) = Some t
       /\ In r t /\ username r = "alice" /\ password r = "pw1".
Proof.
  assert (Hin : In (Analysis (Header "Sentiment Analysis"))
                  (fst (fst (main member_world
                               (login_form "alice" "pw1" text_page))))).
  { right. right. right. left. reflexivity. }
  split; [exact Hin |].
  exact (proj2 (proj2 (main_analysis_requires_login member_world
                         (login_form "alice" "pw1" text_page) _ Hin))).
Defined.

Lemma main_raises_only_from_analysis_witness :
  snd (fst (main member_world (login_form "alice" "pw1" svm_page)))
  = Raises FileNotFoundError
  /\ (exists t r,
        init_db (users_db member_world) = Some t
        /\ In r t /\ username r = "alice" /\ password r = "pw1")
  /\ snd (run_sentiment_analysis member_world svm_page)
     = Raises FileNotFoundError.
Proof.
  split; [reflexivity |].
  exact (proj2 (proj2 (main_raises_only_from_analysis member_world
                         (login_form "alice" "pw1" svm_page)
                         FileNotFoundError eq_refl))).
Defined.

Lemma main_register_witness :
  exists t,
    init_db (users_db member_world) = Some t
    /\ snd (fst (main member_world (register_form "alice" "Mallory" "pw2")))
       = Returns tt.
Proof.
  destruct (main_register member_world (register_form "alice" "Mallory" "pw2")
              eq_refl eq_refl) as (t & Ht & Hok & _).
  now exists t.
Defined.

Lemma main_login_rejects_witness :
  fst (main member_world (login_form "alice" "PW1" text_page))
  = ([Title "Sentiment Analyzer with User Auth"; Subheader "Login";
      ErrorBox "Invalid credentials"], Returns tt)
  /\ users_db (snd (main member_world (login_form "alice" "PW1" text_page)))
     = Some [mkUser "alice" "Alice" "pw1"].
Proof.
  apply (main_login_rejects member_world (login_form "alice" "PW1" text_page)
           [mkUser "alice" "Alice" "pw1"] eq_refl eq_refl eq_refl).
  intros r [<- | []]. right. discriminate.
Defined.

Lemma session_login_after_register_witness :
  fst (main (session [login_form "alice" "bad" text_page;
                      register_form "alice" "Mallory" "pw2"]
                     (snd (main quiet_world
                             (register_form "alice" "Alice" "pw1"))))
            (login_form "alice" "pw1" text_page))
  = ([Title "Sentiment Analyzer with User Auth"; Subheader "Login";
      SuccessBox "Welcome Alice!";
      Analysis (Header "Sentiment Analysis");
      Analysis (Success "Sentiment: Positive")], Returns tt).
Proof.
  apply (session_login_after_register quiet_world "alice" "Alice" "pw1"
           [login_form "alice" "bad" text_page;
            register_form "alice" "Mallory" "pw2"] text_page).
  intros t Ht. injection Ht as <-. reflexivity.
Defined.

(** ** Size and emptiness of the cleaned text *)

Lemma map_chars_length (f : ascii -> ascii) (s : string) :
  String.length (Py.map_chars f s) = String.length s.
Proof. induction s as [|c s IH]; simpl; [reflexivity | now rewrite IH]. Qed.

Lemma append_length (a b : string) :
  String.length (a ++ b) = String.length a + String.length b.
Proof. induction a as [|c a IH]; simpl; [reflexivity | now rewrite IH]. Qed.

Lemma join_length_cons (t : string) (ts : list string) :
  String.length (Py.join " " (t :: ts))
  = String.length t
    + match ts with
      | [] => 0
      | _ => 1 + String.length (Py.join " " ts)
      end.
Proof.
  destruct ts as [|u ts]; [simpl; lia |].
  rewrite join_cons, append_length. reflexivity.
Qed.

Lemma join_filter_length (f : string -> bool) (ts : list string) :
  String.length (Py.join " " (filter f ts))
  <= String.length (Py.join " " ts).
Proof.
  induction ts as [|t ts IH]; [reflexivity |].
  rewrite (join_length_cons t ts). cbn [filter].
  destruct (f t).
  - rewrite join_length_cons.
    destruct (filter f ts) as [|u us] eqn:Ef; [lia |].
    destruct ts as [|u' ts']; [discriminate Ef | lia].
  - destruct ts as [|u' ts']; [simpl; lia | lia].
Qed.

Lemma split_join_length (s : string) :
  String.length (Py.join " " (Py.split s))
  + (if leading_space s then 1 else 0)
  <= String.length s.
Proof.
  induction s as [|c s IH]; [reflexivity |].
  cbn [Py.split leading_space String.length].
  destruct (Py.isspace c) eqn:Ec.
  - destruct (leading_space s); lia.
  - destruct s as [|d s'].
    + simpl. lia.
    + cbn [Py.starts_word]. cbn [leading_space] in IH.
      destruct (Py.isspace d) eqn:Ed; cbn [negb].
      * rewrite join_length_cons.
        destruct (Py.split (String d s')); simpl in *; lia.
      * destruct (Py.split (String d s')) as [|t ts] eqn:Es.
        -- simpl in *. lia.
        -- rewrite join_length_cons in IH. rewrite join_length_cons.
           cbn [String.length] in *. lia.
Qed.

(** The cleaned text is never longer than the text. *)
Theorem clean_text_length (stop_words : list string) (text : string) :
  String.length (clean_text stop_words text) <= String.length text.
Proof.
  unfold clean_text. cbn zeta.
  eapply Nat.le_trans; [apply join_filter_length |].
  pose proof (split_join_length (Py.lower (Py.sub_non_alpha text))) as H.
  unfold Py.lower, Py.sub_non_alpha in *.
  rewrite !map_chars_length in H. lia.
Qed.

Lemma filter_nil {A : Type} (f : A -> bool) (l : list A) :
  filter f l = [] <-> Forall (fun x => f x = false) l.
Proof.
  induction l as [|x l IH]; simpl.
  - split; [constructor | reflexivity].
  - destruct (f x) eqn:Ex.
    + split; [discriminate |]. intro H. inversion H. congruence.
    + rewrite IH. split.
      * intro H. now constructor.
      * intro H. now inversion H.
Qed.

(** The cleaned text is empty exactly when every word of the text is a stop
    word (in particular when the text has no letters at all): the classifier
    is handed the empty document in those cases and in no other. *)
Theorem clean_text_empty_iff (stop_words : list string) (text : string) :
  clean_text stop_words text = ""
  <-> Forall (fun word => Py.contains stop_words word = true)
             (Py.split (Py.lower (Py.sub_non_alpha text))).
Proof.
  rewrite clean_text_tokens. split.
  - intro Hempty.
    assert (Hnil : tokens stop_words text = []).
    { pose proof (tokens_words stop_words text) as Hw.
      destruct (tokens stop_words text) as [|t ts]; [reflexivity |].
      inversion Hw as [|? ? Ht _]; subst.
      pose proof (join_starts_word t ts (is_word_spaceless t Ht)) as Hs.
      rewrite Hempty in Hs. discriminate Hs. }
    unfold tokens in Hnil. apply filter_nil in Hnil.
    eapply Forall_impl; [|exact Hnil]. intros word Hk.
    unfold kept in Hk. now apply negb_false_iff in Hk.
  - intro Hall. unfold tokens.
    replace (filter _ _) with (@nil string); [reflexivity |].
    symmetry. apply filter_nil.
    eapply Forall_impl; [|exact Hall]. intros word Hw.
    unfold kept. now rewrite Hw.
Qed.

(** ** The users table across runs *)

(** Through any sequence of runs of [main], from any database file whose
    usernames are unique (or that has no table yet), the usernames of the
    table stay unique. *)
Theorem session_keeps_usernames_unique {matrix : Type} (fs : list form) :
  forall (w : world matrix),
  (forall t, users_db w = Some t -> unique_usernames t) ->
  forall t', users_db (session fs w) = Some t' -> unique_usernames t'.
Proof.
  induction fs as [|f fs IH]; intros w Hu t' Ht'; [now apply Hu |].
  cbn [session] in Ht'. apply (IH (snd (main w f))); [|exact Ht'].
  destruct (init_db_some (users_db w)) as [t Ht].
  assert (Hut : unique_usernames t).
  { destruct (users_db w) as [t0|].
    - injection Ht as <-. now apply Hu.
    - injection Ht as <-. constructor. }
  intros t1 Ht1.
  destruct (main_users_db w f t Ht) as [H | (r & Hfree & H)];
    rewrite H in Ht1; injection Ht1 as <-; [exact Hut |].
  apply (insert_user_unique r t); [exact Hut |].
  now apply insert_user_fresh.
Qed.

Lemma session_keeps_usernames_unique_witness :
  unique_usernames [mkUser "alice" "Alice" "pw1"; mkUser "bob" "Bob" "pw3"].
Proof.
  apply (session_keeps_usernames_unique
           [register_form "alice" "Alice" "pw1";
            register_form "alice" "Mallory" "pw2";
            login_form "alice" "pw1" text_page;
            register_form "bob" "Bob" "pw3"]
           (with_users_db quiet_world None)).
  - intros t Ht. discriminate Ht.
  - reflexivity.
Defined.
